(** * adaptive_type: technique selection, backends and the adaptive value

    A shallow embedding of the headers under [include/]:
    - [adaptive_techniq.h]: the technique enumeration, [technt2string],
      [detected_techniq_used];
    - [internal/technique_backend_{scalar,mmx,sse,avx}.h]: the four backends;
    - [adaptive_integer.h]: [technique_selector] and [adaptive_number].

    Integers of a bound width are mathematical integers ([Z]) kept in the
    range of their type; every conversion to the bound type is written out
    as [wrap].  Vector registers are bit vectors ([Z]) cut into lanes with
    [Z.land], [Z.lor], [Z.shiftl] and [Z.shiftr].  The embedding gives the
    run-time meaning of each function body on the x86 targets the intrinsics
    exist for: the arithmetic operators wrap, the division instruction
    faults.  A function is followed along the branch its [sizeof] tests
    select.  What a C++ compiler rejects is kept apart from what the code
    computes: [buildable] says in which builds the headers compile at all,
    [instantiable] which backend members can be instantiated for an integer
    type, and the const-qualified [set] is modelled with its qualifier.
    The functions give a meaning to the selected branch everywhere; the
    theorems speak of a result only where the member can be instantiated. *)

From Stdlib Require Import ZArith List Bool String Lia.
From Stdlib Require Import Zdiv.
Import ListNotations.
Local Open Scope Z_scope.

(** ** Integer types bound to the template parameter [TINT] *)

Module IntType.

(** The fixed-width types of <cstdint> that [adaptive_integer.h] names in
    its explicit specializations and aliases, and any other integer type
    (for instance a 16-byte [__int128]) given by its size and signedness. *)
Inductive int_type : Type :=
| uint8_t | uint16_t | uint32_t | uint64_t
| int8_t | int16_t | int32_t | int64_t
| other_int (size : positive) (sgn : bool).

(** [sizeof(TINT)], in bytes. *)
Definition sizeof (t : int_type) : Z :=
  match t with
  | uint8_t | int8_t => 1
  | uint16_t | int16_t => 2
  | uint32_t | int32_t => 4
  | uint64_t | int64_t => 8
  | other_int s _ => Z.pos s
  end.

Definition is_signed (t : int_type) : bool :=
  match t with
  | uint8_t | uint16_t | uint32_t | uint64_t => false
  | int8_t | int16_t | int32_t | int64_t => true
  | other_int _ s => s
  end.

Definition bits (t : int_type) : Z := 8 * sizeof t.

Definition min_value (t : int_type) : Z :=
  if is_signed t then - 2 ^ (bits t - 1) else 0.

Definition max_value (t : int_type) : Z :=
  if is_signed t then 2 ^ (bits t - 1) - 1 else 2 ^ bits t - 1.

(** The values a variable of type [t] can hold. *)
Definition in_range (t : int_type) (z : Z) : Prop :=
  min_value t <= z <= max_value t.

(** [k]-bit two's-complement reading of an integer. *)
Definition signed (k : Z) (z : Z) : Z :=
  (z + 2 ^ (k - 1)) mod 2 ^ k - 2 ^ (k - 1).

(** [k]-bit unsigned reading of an integer. *)
Definition unsigned (k : Z) (z : Z) : Z := z mod 2 ^ k.

(** Conversion of an integer result to [t]: [static_cast<value_type>], the
    implicit conversion of a returned or assigned expression, and the
    wrap-around of the machine's fixed-width arithmetic. *)
Definition wrap (t : int_type) (z : Z) : Z :=
  if is_signed t then signed (bits t) z else unsigned (bits t) z.

(** The sizes the vector backends have a branch for. *)
Definition valid_width (t : int_type) : Prop :=
  sizeof t = 1 \/ sizeof t = 2 \/ sizeof t = 4 \/ sizeof t = 8.

End IntType.
Import IntType.

(** ** adaptive_techniq.h *)

Module Techniq.

(** The macros that gate enumerators, switch cases and specializations. *)
Record capabilities : Type := {
  has_MMX : bool;      (* __MMX__ *)
  has_SSE2 : bool;     (* __SSE2__ *)
  has_AVX2 : bool;     (* __AVX2__ *)
  has_AVX512 : bool;   (* __AVX512__ *)
  has_NEON : bool;     (* __NEON__ *)
  has_GPU : bool       (* __GPU__ *)
}.

(** [enum class techn_type]: a value of the enumeration is its underlying
    integer, so that values without an enumerator (a cast, or an enumerator
    that is not compiled in) are values too. *)
Definition techn_t : Type := Z.

Definition Scalar : techn_t := 0.
Definition MMX : techn_t := 1.
Definition SSE : techn_t := 2.
Definition AVX : techn_t := 4.
Definition AVX512 : techn_t := 8.
(** The enumerator guarded by [__NEON__] has the value 16; the enumeration
    spells it [AVX512] a second time and [technt2string] calls it [NEON],
    so that a build with [__NEON__] does not compile ([buildable]). *)
Definition NEON : techn_t := 16.
Definition OpenCL : techn_t := 200.
Definition Vulkan : techn_t := 201.
Definition internal : techn_t := 255.

(** The macro that guards the enumerator of a value, if it has one. *)
Definition compiled_in (c : capabilities) (tech : techn_t) : bool :=
  if tech =? Scalar then true
  else if tech =? MMX then has_MMX c
  else if tech =? SSE then has_SSE2 c
  else if tech =? AVX then has_AVX2 c
  else if tech =? AVX512 then has_AVX512 c
  else if tech =? NEON then has_NEON c
  else if tech =? OpenCL then has_GPU c
  else if tech =? Vulkan then has_GPU c
  else if tech =? internal then true
  else false.

(** [technt2string]: a switch whose cases are guarded one by one.  The case
    guarded by [__NEON__] names an enumerator that does not exist: the
    function is the source's wherever [has_NEON] is false. *)
Definition technt2string (c : capabilities) (tech : techn_t) : string :=
  if has_MMX c && (tech =? MMX) then "MMX"%string
  else if has_SSE2 c && (tech =? SSE) then "SSE"%string
  else if has_AVX2 c && (tech =? AVX) then "AVX"%string
  else if has_AVX512 c && (tech =? AVX512) then "AVX512"%string
  else if has_NEON c && (tech =? NEON) then "NEON"%string
  else if has_GPU c && (tech =? OpenCL) then "OpenCL"%string
  else if has_GPU c && (tech =? Vulkan) then "Vulkan"%string
  else "Scalar"%string.

(** [internal::detected_techniq_used<TINT>()]. *)
Definition detected_techniq_used (t : int_type) : techn_t :=
  let _result := internal in
  if _result =? internal then
    if sizeof t <=? 4 then Scalar
    else if sizeof t <=? 8 then SSE
    else AVX
  else _result.

End Techniq.
Import Techniq.

(** ** Vector registers and the intrinsics the backends call *)

Module Simd.

(** A register is the integer of its bits; lane [i] of width [w] is the
    [w]-bit field that starts at bit [w * i]. *)
Definition lane (w : Z) (i : nat) (v : Z) : Z :=
  Z.land (Z.shiftr v (w * Z.of_nat i)) (Z.ones w).

(** Lanes to register, lane 0 first; each lane keeps its low [w] bits. *)
Fixpoint pack (w : Z) (ls : list Z) : Z :=
  match ls with
  | [] => 0
  | x :: r => Z.lor (Z.land x (Z.ones w)) (Z.shiftl (pack w r) w)
  end.

Definition lanes (w : Z) (n : nat) (v : Z) : list Z :=
  map (fun i => lane w i v) (seq 0 n).

(** Broadcast of one scalar to [n] lanes of [w] bits. *)
Definition set1 (w : Z) (n : nat) (x : Z) : Z := pack w (repeat x n).

(** Lane-wise operation on two registers of [n] lanes of [w] bits. *)
Definition lanewise (w : Z) (n : nat) (f : Z -> Z -> Z) (va vb : Z) : Z :=
  pack w (map (fun p => f (fst p) (snd p))
              (combine (lanes w n va) (lanes w n vb))).

(** *** mmintrin.h: 64-bit registers *)
Definition _mm_set1_pi8 := set1 8 8.
Definition _mm_set1_pi16 := set1 16 4.
Definition _mm_set1_pi32 := set1 32 2.
Definition _m_from_int64 := set1 64 1.
Definition _mm_add_pi8 := lanewise 8 8 Z.add.
Definition _mm_add_pi16 := lanewise 16 4 Z.add.
Definition _mm_add_pi32 := lanewise 32 2 Z.add.
Definition _mm_add_si64 := lanewise 64 1 Z.add.
Definition _mm_sub_pi8 := lanewise 8 8 Z.sub.
Definition _mm_sub_pi16 := lanewise 16 4 Z.sub.
Definition _mm_sub_pi32 := lanewise 32 2 Z.sub.
Definition _mm_sub_si64 := lanewise 64 1 Z.sub.
Definition _mm_mullo_pi16 := lanewise 16 4 Z.mul.
(** The low 32 bits of the register, as an [int]. *)
Definition _mm_cvtsi64_si32 (v : Z) : Z := signed 32 (Z.land v (Z.ones 32)).
(** The 64 bits of the register, as a 64-bit signed integer. *)
Definition _mm_cvtm64_si64 (v : Z) : Z := signed 64 (Z.land v (Z.ones 64)).

(** *** emmintrin.h, smmintrin.h: 128-bit registers *)
Definition _mm_set1_epi8 := set1 8 16.
Definition _mm_set1_epi16 := set1 16 8.
Definition _mm_set1_epi32 := set1 32 4.
Definition _mm_set1_epi64x := set1 64 2.
Definition _mm_add_epi8 := lanewise 8 16 Z.add.
Definition _mm_add_epi16 := lanewise 16 8 Z.add.
Definition _mm_add_epi32 := lanewise 32 4 Z.add.
Definition _mm_add_epi64 := lanewise 64 2 Z.add.
Definition _mm_sub_epi8 := lanewise 8 16 Z.sub.
Definition _mm_sub_epi16 := lanewise 16 8 Z.sub.
Definition _mm_sub_epi32 := lanewise 32 4 Z.sub.
Definition _mm_sub_epi64 := lanewise 64 2 Z.sub.
Definition _mm_mullo_epi16 := lanewise 16 8 Z.mul.
Definition _mm_mullo_epi32 := lanewise 32 4 Z.mul.
(** The 8- and 16-bit extractions return the lane zero-extended to [int]. *)
Definition _mm_extract_epi8 (v : Z) (i : nat) : Z := lane 8 i v.
Definition _mm_extract_epi16 (v : Z) (i : nat) : Z := lane 16 i v.
Definition _mm_extract_epi32 (v : Z) (i : nat) : Z := signed 32 (lane 32 i v).
Definition _mm_extract_epi64 (v : Z) (i : nat) : Z := signed 64 (lane 64 i v).

(** *** immintrin.h: 256-bit registers *)
Definition _mm256_set1_epi8 := set1 8 32.
Definition _mm256_set1_epi16 := set1 16 16.
Definition _mm256_set1_epi32 := set1 32 8.
Definition _mm256_set1_epi64x := set1 64 4.
(** [_mm256_set_epi64x(e3, e2, e1, e0)]: [e0] is lane 0. *)
Definition _mm256_set_epi64x (e3 e2 e1 e0 : Z) : Z := pack 64 [e0; e1; e2; e3].
Definition _mm256_add_epi8 := lanewise 8 32 Z.add.
Definition _mm256_add_epi16 := lanewise 16 16 Z.add.
Definition _mm256_add_epi32 := lanewise 32 8 Z.add.
Definition _mm256_add_epi64 := lanewise 64 4 Z.add.
Definition _mm256_sub_epi8 := lanewise 8 32 Z.sub.
Definition _mm256_sub_epi16 := lanewise 16 16 Z.sub.
Definition _mm256_sub_epi32 := lanewise 32 8 Z.sub.
Definition _mm256_sub_epi64 := lanewise 64 4 Z.sub.
Definition _mm256_mullo_epi16 := lanewise 16 16 Z.mul.
Definition _mm256_mullo_epi32 := lanewise 32 8 Z.mul.
Definition _mm256_mullo_epi64 := lanewise 64 4 Z.mul.
Definition _mm256_extract_epi8 (v : Z) (i : nat) : Z := lane 8 i v.
Definition _mm256_extract_epi16 (v : Z) (i : nat) : Z := lane 16 i v.
Definition _mm256_extract_epi32 (v : Z) (i : nat) : Z := signed 32 (lane 32 i v).
Definition _mm256_extract_epi64 (v : Z) (i : nat) : Z := signed 64 (lane 64 i v).

End Simd.
Import Simd.

(** ** The backends: internal/technique_backend_*.h *)

(** What a call of a backend function yields: a value of the bound type, or
    the processor's divide-error exception, which ends the program. *)
Inductive outcome : Type :=
| Value (z : Z)
| Fault.

(** The expression [a / b] on operands of type [t].  Operands narrower than
    [int] are promoted to [int] first, so the quotient of two such operands
    always fits the type the division is computed in.  The division
    instruction raises the divide error for a zero divisor and, on a signed
    type of 4 or 8 bytes (the operand sizes of the instruction), for the one
    quotient that does not fit, the least value divided by [-1].  A wider
    type is divided by a library routine, which returns for that pair; the
    conversion of the result wraps it. *)
Definition native_div (t : int_type) (a b : Z) : outcome :=
  if b =? 0 then Fault
  else if is_signed t && ((sizeof t =? 4) || (sizeof t =? 8))
          && (a =? min_value t) && (b =? -1)
  then Fault
  else Value (wrap t (Z.quot a b)).

Module technique_backend_scalar.

Definition add (t : int_type) (a b : Z) : Z := wrap t (a + b).
Definition sub (t : int_type) (a b : Z) : Z := wrap t (a - b).
Definition mul (t : int_type) (a b : Z) : Z := wrap t (a * b).
Definition div (t : int_type) (a b : Z) : outcome := native_div t a b.

End technique_backend_scalar.

Module technique_backend_mmx.

Definition add (t : int_type) (a b : Z) : Z :=
  let _result := 0 in
  if sizeof t =? 1 then
    let va := _mm_set1_pi8 a in
    let vb := _mm_set1_pi8 b in
    let vc := _mm_add_pi8 va vb in
    wrap t (_mm_cvtsi64_si32 vc)
  else if sizeof t =? 2 then
    let va := _mm_set1_pi16 a in
    let vb := _mm_set1_pi16 b in
    let vc := _mm_add_pi16 va vb in
    wrap t (_mm_cvtsi64_si32 vc)
  else if sizeof t =? 4 then
    let va := _mm_set1_pi32 a in
    let vb := _mm_set1_pi32 b in
    let vc := _mm_add_pi32 va vb in
    wrap t (_mm_cvtsi64_si32 vc)
  else if sizeof t =? 8 then
    let va := _m_from_int64 a in
    let vb := _m_from_int64 b in
    let vc := _mm_add_si64 va vb in
    wrap t (_mm_cvtm64_si64 vc)
  else wrap t (a + b).

Definition sub (t : int_type) (a b : Z) : Z :=
  let _result := 0 in
  if sizeof t =? 1 then
    let va := _mm_set1_pi8 a in
    let vb := _mm_set1_pi8 b in
    let vc := _mm_sub_pi8 va vb in
    wrap t (_mm_cvtsi64_si32 vc)
  else if sizeof t =? 2 then
    let va := _mm_set1_pi16 a in
    let vb := _mm_set1_pi16 b in
    let vc := _mm_sub_pi16 va vb in
    wrap t (_mm_cvtsi64_si32 vc)
  else if sizeof t =? 4 then
    let va := _mm_set1_pi32 a in
    let vb := _mm_set1_pi32 b in
    let vc := _mm_sub_pi32 va vb in
    wrap t (_mm_cvtsi64_si32 vc)
  else if sizeof t =? 8 then
    let va := _m_from_int64 a in
    let vb := _m_from_int64 b in
    let vc := _mm_sub_si64 va vb in
    wrap t (_mm_cvtm64_si64 vc)
  else wrap t (a - b).

Definition mul (t : int_type) (a b : Z) : Z :=
  let _result := 0 in
  if sizeof t =? 1 then
    let va := _mm_set1_pi16 a in
    let vb := _mm_set1_pi16 b in
    let vc := _mm_mullo_pi16 va vb in
    wrap t (_mm_cvtsi64_si32 vc)
  else if sizeof t =? 2 then
    let va := _mm_set1_pi16 a in
    let vb := _mm_set1_pi16 b in
    let vc := _mm_mullo_pi16 va vb in
    wrap t (_mm_cvtsi64_si32 vc)
  else wrap t (a * b).

Definition div (t : int_type) (a b : Z) : outcome := native_div t a b.

End technique_backend_mmx.

Module technique_backend_sse.

Definition add (t : int_type) (a b : Z) : Z :=
  let _result := 0 in
  if sizeof t =? 1 then
    let va := _mm_set1_epi8 a in
    let vb := _mm_set1_epi8 b in
    let vc := _mm_add_epi8 va vb in
    wrap t (_mm_extract_epi8 vc 0)
  else if sizeof t =? 2 then
    let va := _mm_set1_epi16 a in
    let vb := _mm_set1_epi16 b in
    let vc := _mm_add_epi16 va vb in
    wrap t (_mm_extract_epi16 vc 0)
  else if sizeof t =? 4 then
    let va := _mm_set1_epi32 a in
    let vb := _mm_set1_epi32 b in
    let vc := _mm_add_epi32 va vb in
    wrap t (_mm_extract_epi32 vc 0)
  else if sizeof t =? 8 then
    let va := _mm_set1_epi64x a in
    let vb := _mm_set1_epi64x b in
    let vc := _mm_add_epi64 va vb in
    wrap t (_mm_extract_epi64 vc 0)
  else _result.

Definition sub (t : int_type) (a b : Z) : Z :=
  let _result := 0 in
  if sizeof t =? 1 then
    let va := _mm_set1_epi8 a in
    let vb := _mm_set1_epi8 b in
    let vc := _mm_sub_epi8 va vb in
    wrap t (_mm_extract_epi8 vc 0)
  else if sizeof t =? 2 then
    let va := _mm_set1_epi16 a in
    let vb := _mm_set1_epi16 b in
    let vc := _mm_sub_epi16 va vb in
    wrap t (_mm_extract_epi16 vc 0)
  else if sizeof t =? 4 then
    let va := _mm_set1_epi32 a in
    let vb := _mm_set1_epi32 b in
    let vc := _mm_sub_epi32 va vb in
    wrap t (_mm_extract_epi32 vc 0)
  else if sizeof t =? 8 then
    let va := _mm_set1_epi64x a in
    let vb := _mm_set1_epi64x b in
    let vc := _mm_sub_epi64 va vb in
    wrap t (_mm_extract_epi64 vc 0)
  else _result.

Definition mul (t : int_type) (a b : Z) : Z :=
  let _result := 0 in
  if sizeof t =? 1 then
    let va := _mm_set1_epi16 a in
    let vb := _mm_set1_epi16 b in
    let vc := _mm_mullo_epi16 va vb in
    wrap t (_mm_extract_epi16 vc 0)
  else if sizeof t =? 2 then
    let va := _mm_set1_epi16 a in
    let vb := _mm_set1_epi16 b in
    let vc := _mm_mullo_epi16 va vb in
    wrap t (_mm_extract_epi16 vc 0)
  else if sizeof t =? 4 then
    let va := _mm_set1_epi32 a in
    let vb := _mm_set1_epi32 b in
    let vc := _mm_mullo_epi32 va vb in
    wrap t (_mm_extract_epi32 vc 0)
  else wrap t (a * b).

Definition div (t : int_type) (a b : Z) : outcome := native_div t a b.

End technique_backend_sse.

Module technique_backend_avx.

(** Modelled from the spec: the value representation "with two half
    fields" that the 16-byte branch of [sub] reads and writes ([low],
    [hight]) is never declared in the repository; the two fields are taken
    to be the two 64-bit halves of the value. *)
Definition low (z : Z) : Z := Z.land z (Z.ones 64).
Definition hight (z : Z) : Z := Z.land (Z.shiftr z 64) (Z.ones 64).
Definition of_halves (t : int_type) (lo hi : Z) : Z :=
  wrap t (Z.lor (Z.land lo (Z.ones 64)) (Z.shiftl (Z.land hi (Z.ones 64)) 64)).

Definition add (t : int_type) (a b : Z) : Z :=
  let _result := 0 in
  if sizeof t =? 1 then
    let va := _mm256_set1_epi8 a in
    let vb := _mm256_set1_epi8 b in
    let vc := _mm256_add_epi8 va vb in
    wrap t (_mm256_extract_epi8 vc 0)
  else if sizeof t =? 2 then
    let va := _mm256_set1_epi16 a in
    let vb := _mm256_set1_epi16 b in
    let vc := _mm256_add_epi16 va vb in
    wrap t (_mm256_extract_epi16 vc 0)
  else if sizeof t =? 4 then
    let va := _mm256_set1_epi32 a in
    let vb := _mm256_set1_epi32 b in
    let vc := _mm256_add_epi32 va vb in
    wrap t (_mm256_extract_epi32 vc 0)
  else if sizeof t =? 8 then
    let va := _mm256_set1_epi64x a in
    let vb := _mm256_set1_epi64x b in
    let vc := _mm256_add_epi64 va vb in
    wrap t (_mm256_extract_epi64 vc 0)
  else _result.

(** [sub] has a fifth branch, for 16 bytes, on the two halves of the
    operands; they are placed in lanes 3 and 2 and the result is read from
    lanes 0 and 1.  The branch is a plain [if]: it is compiled for every
    [TINT], and it reads [a.low] and [a.hight], which no integer type has.
    The definition gives the meaning of the selected branch; that the
    member cannot be instantiated for an integer type is [instantiable]. *)
Definition sub (t : int_type) (a b : Z) : Z :=
  let _result := 0 in
  if sizeof t =? 1 then
    let va := _mm256_set1_epi8 a in
    let vb := _mm256_set1_epi8 b in
    let vc := _mm256_sub_epi8 va vb in
    wrap t (_mm256_extract_epi8 vc 0)
  else if sizeof t =? 2 then
    let va := _mm256_set1_epi16 a in
    let vb := _mm256_set1_epi16 b in
    let vc := _mm256_sub_epi16 va vb in
    wrap t (_mm256_extract_epi16 vc 0)
  else if sizeof t =? 4 then
    let va := _mm256_set1_epi32 a in
    let vb := _mm256_set1_epi32 b in
    let vc := _mm256_sub_epi32 va vb in
    wrap t (_mm256_extract_epi32 vc 0)
  else if sizeof t =? 8 then
    let va := _mm256_set1_epi64x a in
    let vb := _mm256_set1_epi64x b in
    let vc := _mm256_sub_epi64 va vb in
    wrap t (_mm256_extract_epi64 vc 0)
  else if sizeof t =? 16 then
    let va := _mm256_set_epi64x (low a) (hight a) 0 0 in
    let vb := _mm256_set_epi64x (low b) (hight b) 0 0 in
    let vc := _mm256_sub_epi64 va vb in
    of_halves t (_mm256_extract_epi64 vc 0) (_mm256_extract_epi64 vc 1)
  else _result.

(** The 8-byte branch of [mul] calls [_mm256_mullo_epi64], an AVX-512DQ
    and AVX-512VL instruction, under a guard that tests [__AVX2__] only:
    where that branch is the selected one the call is accepted only on a
    target with these instruction sets ([instantiable]). *)
Definition mul (t : int_type) (a b : Z) : Z :=
  let _result := 0 in
  if sizeof t =? 1 then
    let va := _mm256_set1_epi16 a in
    let vb := _mm256_set1_epi16 b in
    let vc := _mm256_mullo_epi16 va vb in
    wrap t (_mm256_extract_epi16 vc 0)
  else if sizeof t =? 2 then
    let va := _mm256_set1_epi16 a in
    let vb := _mm256_set1_epi16 b in
    let vc := _mm256_mullo_epi16 va vb in
    wrap t (_mm256_extract_epi16 vc 0)
  else if sizeof t =? 4 then
    let va := _mm256_set1_epi32 a in
    let vb := _mm256_set1_epi32 b in
    let vc := _mm256_mullo_epi32 va vb in
    wrap t (_mm256_extract_epi32 vc 0)
  else if sizeof t =? 8 then
    let va := _mm256_set1_epi64x a in
    let vb := _mm256_set1_epi64x b in
    let vc := _mm256_mullo_epi64 va vb in
    wrap t (_mm256_extract_epi64 vc 0)
  else _result.

Definition div (t : int_type) (a b : Z) : outcome := native_div t a b.

End technique_backend_avx.

(** ** adaptive_integer.h *)

(** The backend class templates; AVX-512 has no class of its own. *)
Inductive backend : Type :=
| backend_scalar
| backend_mmx
| backend_sse
| backend_avx.

(** The four-operation contract, by backend class. *)
Definition backend_add (k : backend) : int_type -> Z -> Z -> Z :=
  match k with
  | backend_scalar => technique_backend_scalar.add
  | backend_mmx => technique_backend_mmx.add
  | backend_sse => technique_backend_sse.add
  | backend_avx => technique_backend_avx.add
  end.

Definition backend_sub (k : backend) : int_type -> Z -> Z -> Z :=
  match k with
  | backend_scalar => technique_backend_scalar.sub
  | backend_mmx => technique_backend_mmx.sub
  | backend_sse => technique_backend_sse.sub
  | backend_avx => technique_backend_avx.sub
  end.

Definition backend_mul (k : backend) : int_type -> Z -> Z -> Z :=
  match k with
  | backend_scalar => technique_backend_scalar.mul
  | backend_mmx => technique_backend_mmx.mul
  | backend_sse => technique_backend_sse.mul
  | backend_avx => technique_backend_avx.mul
  end.

Definition backend_div (k : backend) : int_type -> Z -> Z -> outcome :=
  match k with
  | backend_scalar => technique_backend_scalar.div
  | backend_mmx => technique_backend_mmx.div
  | backend_sse => technique_backend_sse.div
  | backend_avx => technique_backend_avx.div
  end.

(** The explicit (full) specializations of [technique_selector]; none of
    them is guarded, so that the two for [techn_t::SSE] compile only where
    [__SSE2__] is defined ([buildable]). *)
Definition explicit_specialization (t : int_type) (tech : techn_t)
  : option backend :=
  match t with
  | uint8_t | uint16_t | uint32_t | int8_t | int16_t | int32_t =>
      if tech =? Scalar then Some backend_scalar else None
  | uint64_t | int64_t =>
      if tech =? SSE then Some backend_sse else None
  | other_int _ _ => None
  end.

(** The partial specializations on the technique, with their guards. *)
Definition partial_specialization (c : capabilities) (tech : techn_t)
  : option backend :=
  if tech =? Scalar then Some backend_scalar
  else if tech =? internal then Some backend_scalar
  else if has_MMX c && (tech =? MMX) then Some backend_mmx
  else if has_SSE2 c && (tech =? SSE) then Some backend_sse
  else if has_AVX2 c && (tech =? AVX) then Some backend_avx
  else if has_AVX512 c && (tech =? AVX512) then Some backend_avx
  else None.

(** [technique_selector<TINT, TTECH>::type]: the most specialized match,
    the primary template when nothing matches. *)
Definition technique_selector (c : capabilities) (t : int_type)
  (tech : techn_t) : backend :=
  match explicit_specialization t tech with
  | Some k => k
  | None =>
      match partial_specialization c tech with
      | Some k => k
      | None => backend_scalar
      end
  end.

(** The technique values that have a partial specialization written for
    them in [adaptive_integer.h]. *)
Definition has_partial_specialization (tech : techn_t) : bool :=
  (tech =? Scalar) || (tech =? internal) || (tech =? MMX) || (tech =? SSE)
  || (tech =? AVX) || (tech =? AVX512).

(** ** What the compiler accepts *)

(** [detected_techniq_used] names [techn_type::SSE] and [techn_type::AVX]
    outside any guard, two explicit specializations name [techn_t::SSE]
    outside any guard, and with [__NEON__] the switch of [technt2string]
    names an enumerator the enumeration does not declare: the headers
    compile only with [__SSE2__] and [__AVX2__] defined and [__NEON__]
    undefined. *)
Definition buildable (c : capabilities) : bool :=
  has_SSE2 c && has_AVX2 c && negb (has_NEON c).

(** The instruction sets of the target beyond AVX2, which [__AVX2__]
    stands for. *)
Record target : Type := {
  has_AVX512DQ_VL : bool   (* AVX-512DQ and AVX-512VL *)
}.

(** The four members of a backend class. *)
Inductive operation : Type :=
| op_add
| op_sub
| op_mul
| op_div.

(** Whether member [o] of backend class [k] can be instantiated for the
    integer type [t].  The AVX [sub] never can: its 16-byte branch is
    compiled whatever the size and reads members an integer has not.  The
    AVX [mul] of an 8-byte type needs AVX-512DQ and AVX-512VL; at the other
    sizes the call in its 8-byte branch is dead and dropped. *)
Definition instantiable (tg : target) (k : backend) (o : operation)
  (t : int_type) : bool :=
  match k, o with
  | backend_avx, op_sub => false
  | backend_avx, op_mul => has_AVX512DQ_VL tg || negb (sizeof t =? 8)
  | _, _ => true
  end.

Module adaptive_number.

(** [adaptive_number<TINT, TTECH>]: the template arguments are part of the
    type; an object holds the one member [m_tiValue]. *)
Record t (TINT : int_type) (TTECH : techn_t) : Type :=
  Build { m_tiValue : Z }.
Arguments Build {TINT TTECH} _.
Arguments m_tiValue {TINT TTECH} _.

(** The cv-qualifier of a member function, that is, of its [*this]. *)
Inductive cv_qualifier : Type :=
| cv_unqualified
| cv_const.

Section Members.
Variable c : capabilities.
Context {TINT : int_type} {TTECH : techn_t}.

Local Abbreviation this_type := (t TINT TTECH).

(** [backend_type = typename technique_selector<TINT, TTECH>::type]. *)
Definition backend_type : backend := technique_selector c TINT TTECH.

Definition value (x : this_type) : Z := m_tiValue x.
Definition get_techniq (x : this_type) : techn_t := TTECH.

(** The statement [m_tiValue = v;] in a member function with qualifier
    [q].  The member is not declared [mutable]: through a const [*this]
    it is a const lvalue and the assignment is ill-formed, so that no
    program contains the call ([None]); otherwise the object holds [v]
    after the statement. *)
Definition assign_m_tiValue (q : cv_qualifier) (v : Z) (x : this_type)
  : option this_type :=
  match q with
  | cv_unqualified => Some (Build v)
  | cv_const => None
  end.

(** [void set(const value_type v) const { m_tiValue = v; }]: the object
    after the call. *)
Definition set (v : Z) (x : this_type) : option this_type :=
  assign_m_tiValue cv_const v x.

(** Binary operators build a new object from the backend's result. *)
Definition operator_add (x other : this_type) : this_type :=
  Build (backend_add backend_type TINT (m_tiValue x) (m_tiValue other)).
Definition operator_sub (x other : this_type) : this_type :=
  Build (backend_sub backend_type TINT (m_tiValue x) (m_tiValue other)).
Definition operator_mul (x other : this_type) : this_type :=
  Build (backend_mul backend_type TINT (m_tiValue x) (m_tiValue other)).
Definition operator_div (x other : this_type) : option this_type :=
  match backend_div backend_type TINT (m_tiValue x) (m_tiValue other) with
  | Value z => Some (Build z)
  | Fault => None
  end.

(** [operator ++ (int)] and [operator -- (int)], neither of them
    const-qualified: the member is updated, then [*this] is returned by
    value.  The pair is (returned object, object after the call). *)
Definition operator_post_inc (x : this_type) : this_type * this_type :=
  let x' : this_type := Build (backend_add backend_type TINT (m_tiValue x) 1) in
  (x', x').
Definition operator_post_dec (x : this_type) : this_type * this_type :=
  let x' : this_type := Build (backend_sub backend_type TINT (m_tiValue x) 1) in
  (x', x').

(** The compound assignments [+=], [-=], [*=] store the backend's result
    in the member and return a reference to [*this]: the object after the
    call. *)
Definition operator_add_assign (x other : this_type) : this_type :=
  Build (backend_add backend_type TINT (m_tiValue x) (m_tiValue other)).
Definition operator_sub_assign (x other : this_type) : this_type :=
  Build (backend_sub backend_type TINT (m_tiValue x) (m_tiValue other)).
Definition operator_mul_assign (x other : this_type) : this_type :=
  Build (backend_mul backend_type TINT (m_tiValue x) (m_tiValue other)).
(** [/=]: the object after the call, if the division returns. *)
Definition operator_div_assign (x other : this_type) : option this_type :=
  match backend_div backend_type TINT (m_tiValue x) (m_tiValue other) with
  | Value z => Some (Build z)
  | Fault => None
  end.

(** The relational operators compare the two members. *)
Definition operator_eq (x o : this_type) : bool := m_tiValue x =? m_tiValue o.
Definition operator_ne (x o : this_type) : bool :=
  negb (m_tiValue x =? m_tiValue o).
Definition operator_lt (x o : this_type) : bool := m_tiValue x <? m_tiValue o.
Definition operator_gt (x o : this_type) : bool := m_tiValue x >? m_tiValue o.
Definition operator_le (x a : this_type) : bool := m_tiValue x <=? m_tiValue a.
Definition operator_ge (x a : this_type) : bool := m_tiValue x >=? m_tiValue a.

(** Copy and move assignment: the object after [x = o]. *)
Definition operator_assign (x o : this_type) : this_type := Build (m_tiValue o).

End Members.

End adaptive_number.



(** ** A build and two objects to evaluate the model on *)

(** An x86-64 build with AVX2: [__MMX__], [__SSE2__] and [__AVX2__] are
    defined, the other macros are not. *)
Definition avx2_build : capabilities :=
  Build_capabilities true true true false false false.

(** A target with AVX2 and without AVX-512. *)
Definition avx2_target : target := {| has_AVX512DQ_VL := false |}.

(** [adaptive_number<__int128, techn_t::SSE> x(5)]. *)
Definition int128_sse_5 : adaptive_number.t (other_int 16 true) SSE :=
  adaptive_number.Build 5.

(** [adaptive_number<int64_t, techn_t::SSE> x(41)], that is [int64s_t x(41)]. *)
Definition int64_sse_41 : adaptive_number.t int64_t SSE :=
  adaptive_number.Build 41.

(** [int32s_t x(1)]. *)
Definition int32_scalar_1 : adaptive_number.t int32_t Scalar :=
  adaptive_number.Build 1.

(** ** Agreement on the low bits

    [cong k x y]: [x] and [y] have the same [k] low bits. *)
Definition cong (k : Z) (x y : Z) : Prop := x mod 2 ^ k = y mod 2 ^ k.

(** * Facts about the data model *)

(** ** Congruence modulo a power of two *)

Section CongFacts.

Lemma pow2_pos (k : Z) : 0 <= k -> 0 < 2 ^ k.
Proof. intros; apply Z.pow_pos_nonneg; lia. Qed.

Lemma cong_refl k x : cong k x x.
Proof. reflexivity. Qed.

Lemma cong_sym k x y : cong k x y -> cong k y x.
Proof. unfold cong; intros; symmetry; assumption. Qed.

Lemma cong_trans k x y z : cong k x y -> cong k y z -> cong k x z.
Proof. unfold cong; intros H1 H2; rewrite H1; exact H2. Qed.

Lemma cong_add k x x' y y' :
  cong k x x' -> cong k y y' -> cong k (x + y) (x' + y').
Proof.
  unfold cong; intros Hx Hy.
  rewrite (Zplus_mod x y), (Zplus_mod x' y'), Hx, Hy; reflexivity.
Qed.

Lemma cong_sub k x x' y y' :
  cong k x x' -> cong k y y' -> cong k (x - y) (x' - y').
Proof.
  unfold cong; intros Hx Hy.
  rewrite (Zminus_mod x y), (Zminus_mod x' y'), Hx, Hy; reflexivity.
Qed.

Lemma cong_mul k x x' y y' :
  cong k x x' -> cong k y y' -> cong k (x * y) (x' * y').
Proof.
  unfold cong; intros Hx Hy.
  rewrite (Zmult_mod x y), (Zmult_mod x' y'), Hx, Hy; reflexivity.
Qed.

Lemma pow2_divide k w : 0 <= k <= w -> (2 ^ k | 2 ^ w).
Proof.
  intros H; exists (2 ^ (w - k)).
  rewrite <- Z.pow_add_r by lia; f_equal; lia.
Qed.

(** Reducing modulo a larger power of two keeps the low [k] bits. *)
Lemma cong_mod k w x : 0 <= k <= w -> cong k (x mod 2 ^ w) x.
Proof. intros H; apply Z.mod_mod_divide, pow2_divide, H. Qed.

Lemma cong_weaken k w x y : 0 <= k <= w -> cong w x y -> cong k x y.
Proof.
  intros H Hxy.
  apply cong_trans with (x mod 2 ^ w); [apply cong_sym, cong_mod, H|].
  rewrite Hxy; apply cong_mod, H.
Qed.

Lemma cong_land_ones k w x : 0 <= k <= w -> cong k (Z.land x (Z.ones w)) x.
Proof. intros H; rewrite Z.land_ones by lia; apply cong_mod, H. Qed.

Lemma cong_signed k w x : 0 <= k <= w -> cong k (signed w x) x.
Proof.
  intros H; unfold signed.
  replace x with (x + 2 ^ (w - 1) - 2 ^ (w - 1)) at 2 by lia.
  apply cong_sub; [apply cong_mod, H | apply cong_refl].
Qed.

Lemma cong_unsigned k w x : 0 <= k <= w -> cong k (unsigned w x) x.
Proof. intros H; apply cong_mod, H. Qed.

End CongFacts.

(** ** Ranges and conversions *)

Section WrapFacts.

Lemma sizeof_pos t : 0 < sizeof t.
Proof. destruct t; simpl; lia. Qed.

Lemma bits_pos t : 8 <= bits t.
Proof. unfold bits; pose proof (sizeof_pos t); lia. Qed.

Lemma half_double k : 0 < k -> 2 ^ k = 2 * 2 ^ (k - 1).
Proof.
  intros H; replace k with (Z.succ (k - 1)) at 1 by lia.
  apply Z.pow_succ_r; lia.
Qed.

(** Equal low bits give equal conversions. *)
Lemma wrap_cong t x y : cong (bits t) x y -> wrap t x = wrap t y.
Proof.
  unfold wrap, signed, unsigned, cong; intros H.
  destruct (is_signed t); [|exact H].
  f_equal.
  rewrite (Zplus_mod x), (Zplus_mod y), H; reflexivity.
Qed.

Lemma cong_wrap t x : cong (bits t) (wrap t x) x.
Proof.
  pose proof (bits_pos t).
  unfold wrap; destruct (is_signed t);
    [apply cong_signed | apply cong_unsigned]; lia.
Qed.

Lemma wrap_in_range t z : in_range t (wrap t z).
Proof.
  pose proof (bits_pos t) as Hb.
  pose proof (pow2_pos (bits t) ltac:(lia)) as Hp.
  pose proof (half_double (bits t) ltac:(lia)) as Hh.
  unfold in_range, min_value, max_value, wrap, signed, unsigned.
  destruct (is_signed t).
  - pose proof (Z.mod_pos_bound (z + 2 ^ (bits t - 1)) (2 ^ bits t) Hp); lia.
  - pose proof (Z.mod_pos_bound z (2 ^ bits t) Hp); lia.
Qed.

(** A value of the type converts to itself. *)
Lemma wrap_id t z : in_range t z -> wrap t z = z.
Proof.
  pose proof (bits_pos t) as Hb.
  pose proof (pow2_pos (bits t) ltac:(lia)) as Hp.
  pose proof (half_double (bits t) ltac:(lia)) as Hh.
  unfold in_range, min_value, max_value, wrap, signed, unsigned.
  destruct (is_signed t); intros Hr.
  - rewrite Z.mod_small by lia; lia.
  - apply Z.mod_small; lia.
Qed.

Lemma wrap_wrap t z : wrap t (wrap t z) = wrap t z.
Proof. apply wrap_id, wrap_in_range. Qed.

End WrapFacts.

(** ** Lane 0 of a broadcast and of a lane-wise operation *)

Section LaneFacts.

Lemma cong_pack k w x r : 0 <= k <= w -> cong k (pack w (x :: r)) x.
Proof.
  intros H. apply cong_weaken with w; [exact H|].
  unfold cong; cbn [pack].
  rewrite <- !Z.land_ones by lia.
  rewrite Z.land_lor_distr_l, <- Z.land_assoc, Z.land_diag.
  rewrite (Z.land_ones (Z.shiftl _ _)), Z.shiftl_mul_pow2 by lia.
  rewrite Z.mod_mul by (pose proof (pow2_pos w); lia).
  apply Z.lor_0_r.
Qed.

Lemma lane0 w v : lane w 0 v = Z.land v (Z.ones w).
Proof. unfold lane; cbn [Z.of_nat]; rewrite Z.mul_0_r, Z.shiftr_0_r; reflexivity. Qed.

Lemma cong_lane0 k w v : 0 <= k <= w -> cong k (lane w 0 v) v.
Proof. intros H; rewrite lane0; apply cong_land_ones, H. Qed.

Lemma cong_set1 k w n x : 0 <= k <= w -> cong k (set1 w (S n) x) x.
Proof. intros H; unfold set1; cbn [repeat]; apply cong_pack, H. Qed.

(** A lane-wise operation that respects the low [w] bits computes, in
    lane 0, the operation on the low bits of its operands. *)
Lemma cong_lanewise k w n f va vb :
  0 <= k <= w ->
  (forall x x' y y', cong w x x' -> cong w y y' -> cong w (f x y) (f x' y')) ->
  cong k (lanewise w (S n) f va vb) (f va vb).
Proof.
  intros H Hf. apply cong_weaken with w; [exact H|].
  unfold lanewise, lanes; cbn [seq map combine fst snd].
  eapply cong_trans; [apply cong_pack; lia|].
  apply Hf; apply cong_lane0; lia.
Qed.

End LaneFacts.

(** * The backends against the scalar backend *)

Create HintDb intrinsics discriminated.

#[local] Hint Unfold
  _mm_set1_pi8 _mm_set1_pi16 _mm_set1_pi32 _m_from_int64
  _mm_add_pi8 _mm_add_pi16 _mm_add_pi32 _mm_add_si64
  _mm_sub_pi8 _mm_sub_pi16 _mm_sub_pi32 _mm_sub_si64
  _mm_mullo_pi16 _mm_cvtsi64_si32 _mm_cvtm64_si64
  _mm_set1_epi8 _mm_set1_epi16 _mm_set1_epi32 _mm_set1_epi64x
  _mm_add_epi8 _mm_add_epi16 _mm_add_epi32 _mm_add_epi64
  _mm_sub_epi8 _mm_sub_epi16 _mm_sub_epi32 _mm_sub_epi64
  _mm_mullo_epi16 _mm_mullo_epi32
  _mm_extract_epi8 _mm_extract_epi16 _mm_extract_epi32 _mm_extract_epi64
  _mm256_set1_epi8 _mm256_set1_epi16 _mm256_set1_epi32 _mm256_set1_epi64x
  _mm256_add_epi8 _mm256_add_epi16 _mm256_add_epi32 _mm256_add_epi64
  _mm256_sub_epi8 _mm256_sub_epi16 _mm256_sub_epi32 _mm256_sub_epi64
  _mm256_mullo_epi16 _mm256_mullo_epi32 _mm256_mullo_epi64
  _mm256_extract_epi8 _mm256_extract_epi16 _mm256_extract_epi32
  _mm256_extract_epi64 : intrinsics.

(** Peels one layer of a broadcast-then-reduce expression at a time, down
    to the scalar operation on the two operands. *)
Ltac cong_step :=
  first
    [ apply cong_refl
    | eapply cong_trans; [apply cong_signed; lia |]
    | eapply cong_trans; [apply cong_land_ones; lia |]
    | eapply cong_trans; [apply cong_lane0; lia |]
    | eapply cong_trans; [apply cong_set1; lia |]
    | eapply cong_trans;
      [ apply cong_lanewise;
        [ lia
        | intros;
          first [ apply cong_sub; assumption
                | apply cong_add; assumption
                | apply cong_mul; assumption ] ] |]
    | apply cong_sub
    | apply cong_add
    | apply cong_mul ].

Ltac broadcast_reduce Hsz :=
  apply wrap_cong; unfold bits; rewrite Hsz;
  autounfold with intrinsics; repeat cong_step.

(** Decides the chain of [sizeof] tests once the size is known. *)
Ltac pick_branch Hsz :=
  rewrite Hsz;
  repeat match goal with
         | |- context [Z.eqb ?x ?y] =>
             let r := eval compute in (Z.eqb x y) in
             change (Z.eqb x y) with r
         end;
  cbv iota zeta.

Section BackendEquivalence.

Variable t : int_type.
Variables a b : Z.

Lemma mmx_add_scalar :
  technique_backend_mmx.add t a b = technique_backend_scalar.add t a b.
Proof.
  unfold technique_backend_mmx.add, technique_backend_scalar.add.
  cbv zeta.
  destruct (Z.eqb_spec (sizeof t) 1) as [H1|_]; [broadcast_reduce H1|].
  destruct (Z.eqb_spec (sizeof t) 2) as [H2|_]; [broadcast_reduce H2|].
  destruct (Z.eqb_spec (sizeof t) 4) as [H4|_]; [broadcast_reduce H4|].
  destruct (Z.eqb_spec (sizeof t) 8) as [H8|_]; [broadcast_reduce H8|].
  reflexivity.
Qed.

Lemma mmx_sub_scalar :
  technique_backend_mmx.sub t a b = technique_backend_scalar.sub t a b.
Proof.
  unfold technique_backend_mmx.sub, technique_backend_scalar.sub.
  cbv zeta.
  destruct (Z.eqb_spec (sizeof t) 1) as [H1|_]; [broadcast_reduce H1|].
  destruct (Z.eqb_spec (sizeof t) 2) as [H2|_]; [broadcast_reduce H2|].
  destruct (Z.eqb_spec (sizeof t) 4) as [H4|_]; [broadcast_reduce H4|].
  destruct (Z.eqb_spec (sizeof t) 8) as [H8|_]; [broadcast_reduce H8|].
  reflexivity.
Qed.

Lemma mmx_mul_scalar :
  technique_backend_mmx.mul t a b = technique_backend_scalar.mul t a b.
Proof.
  unfold technique_backend_mmx.mul, technique_backend_scalar.mul.
  cbv zeta.
  destruct (Z.eqb_spec (sizeof t) 1) as [H1|_]; [broadcast_reduce H1|].
  destruct (Z.eqb_spec (sizeof t) 2) as [H2|_]; [broadcast_reduce H2|].
  reflexivity.
Qed.

(** The SSE multiplication has the scalar fallback, its addition and
    subtraction do not. *)
Lemma sse_mul_scalar :
  technique_backend_sse.mul t a b = technique_backend_scalar.mul t a b.
Proof.
  unfold technique_backend_sse.mul, technique_backend_scalar.mul.
  cbv zeta.
  destruct (Z.eqb_spec (sizeof t) 1) as [H1|_]; [broadcast_reduce H1|].
  destruct (Z.eqb_spec (sizeof t) 2) as [H2|_]; [broadcast_reduce H2|].
  destruct (Z.eqb_spec (sizeof t) 4) as [H4|_]; [broadcast_reduce H4|].
  reflexivity.
Qed.

Hypothesis Hwidth : valid_width t.

Lemma sse_add_scalar :
  technique_backend_sse.add t a b = technique_backend_scalar.add t a b.
Proof.
  unfold technique_backend_sse.add, technique_backend_scalar.add.
  destruct Hwidth as [H|[H|[H|H]]]; pick_branch H; broadcast_reduce H.
Qed.

Lemma sse_sub_scalar :
  technique_backend_sse.sub t a b = technique_backend_scalar.sub t a b.
Proof.
  unfold technique_backend_sse.sub, technique_backend_scalar.sub.
  destruct Hwidth as [H|[H|[H|H]]]; pick_branch H; broadcast_reduce H.
Qed.

Lemma avx_add_scalar :
  technique_backend_avx.add t a b = technique_backend_scalar.add t a b.
Proof.
  unfold technique_backend_avx.add, technique_backend_scalar.add.
  destruct Hwidth as [H|[H|[H|H]]]; pick_branch H; broadcast_reduce H.
Qed.

Lemma avx_mul_scalar :
  technique_backend_avx.mul t a b = technique_backend_scalar.mul t a b.
Proof.
  unfold technique_backend_avx.mul, technique_backend_scalar.mul.
  destruct Hwidth as [H|[H|[H|H]]]; pick_branch H; broadcast_reduce H.
Qed.

End BackendEquivalence.

(** * The specification's claims *)

(** ** Backend set *)

(** C1.  For a bound width of 1, 2, 4 or 8 bytes and every pair of values of
    that width a vector backend returns what the scalar backend returns for
    add, sub and mul, and div is the same plain division [a / b] in every
    backend: so the code does wherever the member can be instantiated.  Two
    members cannot: the AVX [sub], for no integer type, and the AVX [mul]
    of an 8-byte type on a target without AVX-512DQ and AVX-512VL. *)
Theorem cross_technique_equivalence :
  (forall (tg : target) (t : int_type),
      instantiable tg backend_avx op_sub t = false) /\
  (forall t : int_type,
      sizeof t = 8 -> instantiable avx2_target backend_avx op_mul t = false) /\
  (forall (tg : target) (k : backend) (t : int_type) (a b : Z),
      valid_width t -> in_range t a -> in_range t b ->
      instantiable tg k op_add t = true /\
      backend_add k t a b = technique_backend_scalar.add t a b /\
      (instantiable tg k op_sub t = true ->
       backend_sub k t a b = technique_backend_scalar.sub t a b) /\
      (instantiable tg k op_mul t = true ->
       backend_mul k t a b = technique_backend_scalar.mul t a b) /\
      instantiable tg k op_div t = true /\
      backend_div k t a b = technique_backend_scalar.div t a b /\
      backend_div k t a b = native_div t a b).
Proof.
  split; [reflexivity|]. split.
  - intros t H. unfold instantiable, avx2_target. cbn [has_AVX512DQ_VL orb].
    rewrite H. reflexivity.
  - intros tg k t a b Hw _ _.
    destruct k; cbn [backend_add backend_sub backend_mul backend_div];
      (split; [reflexivity|]); (split; [|split; [|split; [|split]]]);
      try reflexivity; try discriminate;
      intros;
      auto using mmx_add_scalar, mmx_sub_scalar, mmx_mul_scalar,
        sse_add_scalar, sse_sub_scalar, sse_mul_scalar,
        avx_add_scalar, avx_mul_scalar.
Qed.

Lemma cross_technique_equivalence_witness :
  valid_width int8_t /\ in_range int8_t 127 /\ in_range int8_t (-3) /\
  instantiable avx2_target backend_sse op_sub int8_t = true /\
  backend_sub backend_sse int8_t 127 (-3)
  = technique_backend_scalar.sub int8_t 127 (-3) /\
  instantiable avx2_target backend_avx op_mul int8_t = true /\
  backend_mul backend_avx int8_t 127 (-3)
  = technique_backend_scalar.mul int8_t 127 (-3).
Proof.
  assert (Hw : valid_width int8_t) by (left; reflexivity).
  assert (Ha : in_range int8_t 127) by (vm_compute; split; discriminate).
  assert (Hb : in_range int8_t (-3)) by (vm_compute; split; discriminate).
  destruct cross_technique_equivalence as (_ & _ & Hall).
  destruct (Hall avx2_target backend_sse int8_t 127 (-3) Hw Ha Hb)
    as (_ & _ & Hsub & _).
  destruct (Hall avx2_target backend_avx int8_t 127 (-3) Hw Ha Hb)
    as (_ & _ & _ & Hmul & _).
  exact (conj Hw (conj Ha (conj Hb
           (conj eq_refl (conj (Hsub eq_refl) (conj eq_refl (Hmul eq_refl))))))).
Defined.

(** C2.  The scalar backend's add, sub and mul are the fixed-width modular
    operations, with no check and no failure: the result is the value of the
    bound type that agrees with [a + b] ([a - b], [a * b]) modulo [2 ^ bits],
    which for an unsigned type is the residue itself.  On 8 bits:
    unsigned [add(250, 10) = 4], signed [add(127, 1) = -128], unsigned
    [mul(200, 200) = 64]. *)
Theorem scalar_modular_arithmetic :
  (forall (t : int_type) (a b : Z),
      in_range t a -> in_range t b ->
      (in_range t (technique_backend_scalar.add t a b) /\
       cong (bits t) (technique_backend_scalar.add t a b) (a + b)) /\
      (in_range t (technique_backend_scalar.sub t a b) /\
       cong (bits t) (technique_backend_scalar.sub t a b) (a - b)) /\
      (in_range t (technique_backend_scalar.mul t a b) /\
       cong (bits t) (technique_backend_scalar.mul t a b) (a * b)) /\
      (is_signed t = false ->
       technique_backend_scalar.add t a b = (a + b) mod 2 ^ bits t /\
       technique_backend_scalar.sub t a b = (a - b) mod 2 ^ bits t /\
       technique_backend_scalar.mul t a b = (a * b) mod 2 ^ bits t) /\
      (is_signed t = true ->
       technique_backend_scalar.add t a b
       = (a + b + 2 ^ (bits t - 1)) mod 2 ^ bits t - 2 ^ (bits t - 1) /\
       technique_backend_scalar.sub t a b
       = (a - b + 2 ^ (bits t - 1)) mod 2 ^ bits t - 2 ^ (bits t - 1) /\
       technique_backend_scalar.mul t a b
       = (a * b + 2 ^ (bits t - 1)) mod 2 ^ bits t - 2 ^ (bits t - 1))) /\
  technique_backend_scalar.add uint8_t 250 10 = 4 /\
  technique_backend_scalar.add int8_t 127 1 = -128 /\
  technique_backend_scalar.mul uint8_t 200 200 = 64.
Proof.
  split; [|repeat split].
  intros t a b _ _.
  unfold technique_backend_scalar.add, technique_backend_scalar.sub,
    technique_backend_scalar.mul.
  repeat split; try apply wrap_in_range; try apply cong_wrap;
    match goal with
    | Hs : is_signed t = _ |- _ =>
        unfold wrap, signed, unsigned; rewrite Hs; reflexivity
    end.
Qed.

Lemma scalar_modular_arithmetic_witness :
  in_range uint16_t 65535 /\ in_range uint16_t 65535 /\
  technique_backend_scalar.mul uint16_t 65535 65535 = 1.
Proof.
  assert (Ha : in_range uint16_t 65535) by (vm_compute; split; discriminate).
  destruct scalar_modular_arithmetic as (Hall & _).
  destruct (Hall uint16_t 65535 65535 Ha Ha) as (_ & _ & _ & Hu & _).
  destruct (Hu eq_refl) as (_ & _ & Hmul).
  refine (conj Ha (conj Ha _)).
  rewrite Hmul; reflexivity.
Defined.

(** C9.  For a type whose size is none of 1, 2, 4, 8 bytes the SSE
    backend's add and sub and the AVX backend's add return 0 for every pair
    of operands: the result starts at zero and no branch is taken.  The MMX
    backend's add ends in the scalar [a + b] instead. *)
Theorem unhandled_width_returns_zero (t : int_type) (a b : Z) :
  ~ valid_width t ->
  technique_backend_sse.add t a b = 0 /\
  technique_backend_sse.sub t a b = 0 /\
  technique_backend_avx.add t a b = 0 /\
  technique_backend_mmx.add t a b = technique_backend_scalar.add t a b.
Proof.
  intros Hw.
  assert (H1 : (sizeof t =? 1) = false) by (apply Z.eqb_neq; unfold valid_width in Hw; tauto).
  assert (H2 : (sizeof t =? 2) = false) by (apply Z.eqb_neq; unfold valid_width in Hw; tauto).
  assert (H4 : (sizeof t =? 4) = false) by (apply Z.eqb_neq; unfold valid_width in Hw; tauto).
  assert (H8 : (sizeof t =? 8) = false) by (apply Z.eqb_neq; unfold valid_width in Hw; tauto).
  unfold technique_backend_sse.add, technique_backend_sse.sub,
    technique_backend_avx.add, technique_backend_mmx.add.
  rewrite H1, H2, H4, H8. repeat split.
Qed.

Lemma unhandled_width_returns_zero_witness :
  ~ valid_width (other_int 16 true) /\
  technique_backend_sse.add (other_int 16 true) 5 3 = 0 /\
  technique_backend_mmx.add (other_int 16 true) 5 3 = 8.
Proof.
  assert (Hw : ~ valid_width (other_int 16 true))
    by (unfold valid_width; simpl; lia).
  destruct (unhandled_width_returns_zero (other_int 16 true) 5 3 Hw)
    as (Hsse & _ & _ & Hmmx).
  refine (conj Hw (conj Hsse _)).
  rewrite Hmmx; reflexivity.
Defined.

(** ** Division *)

Section DivisionFacts.

(** A truncated quotient is no larger in magnitude than the dividend. *)
Lemma quot_abs_le a b : b <> 0 -> Z.abs (Z.quot a b) <= Z.abs a.
Proof.
  intros Hb. rewrite <- Z.quot_abs by exact Hb.
  apply Z.quot_le_upper_bound; [lia|].
  assert (0 <= Z.abs a) by lia. nia.
Qed.

(** With a divisor of magnitude 2 or more the magnitude at least halves. *)
Lemma quot_abs_half a b : 2 <= Z.abs b -> 2 * Z.abs (Z.quot a b) <= Z.abs a.
Proof.
  intros Hb. rewrite <- Z.quot_abs by lia.
  assert (Hq : Z.abs b * (Z.abs a ÷ Z.abs b) <= Z.abs a)
    by (apply Z.mul_quot_le; lia).
  assert (0 <= Z.abs a ÷ Z.abs b) by (apply Z.quot_pos; lia).
  nia.
Qed.

(** The truncated quotient of two values of a type is a value of the type,
    except for the least signed value divided by [-1]. *)
Lemma quot_in_range t a b :
  in_range t a -> in_range t b -> b <> 0 ->
  ~ (is_signed t = true /\ a = min_value t /\ b = -1) ->
  in_range t (Z.quot a b).
Proof.
  pose proof (bits_pos t) as Hbits.
  pose proof (pow2_pos (bits t - 1) ltac:(lia)) as Hp.
  pose proof (half_double (bits t) ltac:(lia)) as Hh.
  unfold in_range, min_value, max_value.
  destruct (is_signed t); intros Ha Hb Hnz Hex.
  - destruct (Z.eq_dec b (-1)) as [-> | Hm1].
    + replace (Z.quot a (-1)) with (- a)
        by (change (-1) with (- (1)); rewrite Z.quot_opp_r, Z.quot_1_r by lia;
            reflexivity).
      assert (a <> - 2 ^ (bits t - 1)) by tauto. lia.
    + destruct (Z.eq_dec b 1) as [-> | H1].
      * rewrite Z.quot_1_r; lia.
      * pose proof (quot_abs_half a b ltac:(lia)). lia.
  - pose proof (quot_abs_le a b Hnz).
    assert (0 <= Z.quot a b) by (apply Z.quot_pos; lia).
    lia.
Qed.

End DivisionFacts.

(** C3, as stated, fails: a nonzero divisor does not always give the
    truncated quotient.  On the 8-bit signed type [div(-128, -1)] is
    computed in [int] as 128 and converted back to -128. *)
Lemma div_min_by_minus_one_counterexample :
  in_range int8_t (-128) /\ in_range int8_t (-1) /\ -1 <> 0 /\
  technique_backend_scalar.div int8_t (-128) (-1) = Value (-128) /\
  Z.quot (-128) (-1) = 128 /\
  technique_backend_scalar.div int8_t (-128) (-1) <> Value (Z.quot (-128) (-1)).
Proof.
  repeat split; try (vm_compute; discriminate); vm_compute; reflexivity.
Qed.

(** C3, amended.  For every pair of values with [b <> 0], the least signed
    value divided by [-1] apart, [div(a, b)] is the quotient truncated toward
    zero ([div(7, 2) = 3], [div(-7, 2) = -3]); no backend guards the divisor,
    and [div(a, 0)] is the divide fault, not a value, for every [a]. *)
Theorem div_truncates_or_faults :
  (forall (k : backend) (t : int_type) (a b : Z),
      in_range t a -> in_range t b ->
      (b <> 0 ->
       ~ (is_signed t = true /\ a = min_value t /\ b = -1) ->
       backend_div k t a b = Value (Z.quot a b)) /\
      (b = 0 -> backend_div k t a b = Fault)) /\
  technique_backend_scalar.div int32_t 7 2 = Value 3 /\
  technique_backend_scalar.div int32_t (-7) 2 = Value (-3).
Proof.
  split; [|split; reflexivity].
  intros k t a b Ha Hb.
  assert (Hk : backend_div k t a b = native_div t a b) by (destruct k; reflexivity).
  rewrite Hk; unfold native_div; split.
  - intros Hnz Hex.
    destruct (Z.eqb_spec b 0) as [|_]; [contradiction|].
    destruct (is_signed t && ((sizeof t =? 4) || (sizeof t =? 8))
              && (a =? min_value t) && (b =? -1)) eqn:Hov.
    + exfalso; apply Hex.
      apply andb_prop in Hov as (Hov & Hb1).
      apply andb_prop in Hov as (Hov & Ha1).
      apply andb_prop in Hov as (Hs & _).
      apply Z.eqb_eq in Ha1, Hb1. auto.
    + f_equal. apply wrap_id, quot_in_range; assumption.
  - intros ->. reflexivity.
Qed.

Lemma div_truncates_or_faults_witness :
  in_range int16_t (-7) /\ in_range int16_t 2 /\
  backend_div backend_sse int16_t (-7) 2 = Value (-3) /\
  backend_div backend_sse int16_t (-7) 0 = Fault.
Proof.
  assert (Ha : in_range int16_t (-7)) by (vm_compute; split; discriminate).
  assert (Hb : in_range int16_t 2) by (vm_compute; split; discriminate).
  assert (H0 : in_range int16_t 0) by (vm_compute; split; discriminate).
  destruct div_truncates_or_faults as (Hall & _).
  destruct (Hall backend_sse int16_t (-7) 2 Ha Hb) as (Hq & _).
  destruct (Hall backend_sse int16_t (-7) 0 Ha H0) as (_ & Hf).
  refine (conj Ha (conj Hb (conj _ (Hf eq_refl)))).
  rewrite Hq; [reflexivity | discriminate | ].
  intros (_ & _ & Hb1); discriminate Hb1.
Defined.

(** ** Technique registry *)

(** C4.  The default technique depends on the size of the type alone: Scalar
    up to 4 bytes, SSE above 4 and up to 8 bytes, AVX above 8 bytes; it is
    never the [internal] sentinel. *)
Theorem detected_techniq_used_by_size (t : int_type) :
  (sizeof t <= 4 -> detected_techniq_used t = Scalar) /\
  (4 < sizeof t <= 8 -> detected_techniq_used t = SSE) /\
  (8 < sizeof t -> detected_techniq_used t = AVX) /\
  detected_techniq_used t <> internal /\
  (forall t' : int_type,
      sizeof t' = sizeof t ->
      detected_techniq_used t' = detected_techniq_used t).
Proof.
  unfold detected_techniq_used; cbv zeta.
  change (internal =? internal) with true; cbv iota.
  repeat split.
  - intros H. destruct (Z.leb_spec (sizeof t) 4); [reflexivity | lia].
  - intros H. destruct (Z.leb_spec (sizeof t) 4); [lia|].
    destruct (Z.leb_spec (sizeof t) 8); [reflexivity | lia].
  - intros H. destruct (Z.leb_spec (sizeof t) 4); [lia|].
    destruct (Z.leb_spec (sizeof t) 8); [lia | reflexivity].
  - destruct (sizeof t <=? 4); [discriminate|].
    destruct (sizeof t <=? 8); discriminate.
  - intros t' ->. reflexivity.
Qed.

Lemma detected_techniq_used_by_size_witness :
  detected_techniq_used int16_t = Scalar /\
  detected_techniq_used uint64_t = SSE /\
  detected_techniq_used (other_int 16 true) = AVX /\
  detected_techniq_used (other_int 8 true) = detected_techniq_used uint64_t.
Proof.
  destruct (detected_techniq_used_by_size int16_t) as (H2 & _).
  destruct (detected_techniq_used_by_size uint64_t) as (_ & H8 & _ & _ & Hsz).
  destruct (detected_techniq_used_by_size (other_int 16 true)) as (_ & _ & H16 & _).
  refine (conj (H2 _) (conj (H8 _) (conj (H16 _) (Hsz (other_int 8 true) eq_refl))));
    simpl; lia.
Defined.

Lemma selector_unspecialized (c : capabilities) (t : int_type) (tech : techn_t) :
  has_partial_specialization tech = false ->
  technique_selector c t tech = backend_scalar.
Proof.
  intros H. unfold has_partial_specialization in H.
  repeat (apply orb_false_elim in H; destruct H as (H & ?)).
  unfold technique_selector, explicit_specialization, partial_specialization.
  repeat match goal with
         | E : (tech =? _) = false |- _ => rewrite E; clear E
         end.
  rewrite !andb_false_r. destruct t; reflexivity.
Qed.

(** C5.  Resolution is a total function to one backend class.  Scalar and
    the [internal] sentinel resolve to the scalar backend; MMX, SSE and AVX
    resolve to their own backend class when their macro is defined, and
    AVX512 to the class its specialization names, the AVX one; a technique
    for which no specialization is compiled in (the GPU identifiers among
    them, whatever the macros) resolves to the scalar backend, without any
    error. *)
Theorem technique_selector_resolution (c : capabilities) (t : int_type) :
  technique_selector c t Scalar = backend_scalar /\
  technique_selector c t internal = backend_scalar /\
  (has_MMX c = true -> technique_selector c t MMX = backend_mmx) /\
  (has_SSE2 c = true -> technique_selector c t SSE = backend_sse) /\
  (has_AVX2 c = true -> technique_selector c t AVX = backend_avx) /\
  (has_AVX512 c = true -> technique_selector c t AVX512 = backend_avx) /\
  (forall tech : techn_t,
      explicit_specialization t tech = None ->
      partial_specialization c tech = None ->
      technique_selector c t tech = backend_scalar) /\
  (forall tech : techn_t,
      has_partial_specialization tech = false ->
      technique_selector c t tech = backend_scalar) /\
  (forall tech : techn_t,
      compiled_in c tech = false ->
      explicit_specialization t tech = None ->
      technique_selector c t tech = backend_scalar) /\
  technique_selector c t OpenCL = backend_scalar /\
  technique_selector c t Vulkan = backend_scalar /\
  technique_selector c t NEON = backend_scalar.
Proof.
  repeat split.
  - destruct t; reflexivity.
  - destruct t; reflexivity.
  - intros H; unfold technique_selector, partial_specialization;
      rewrite H; destruct t; reflexivity.
  - intros H; unfold technique_selector, partial_specialization; rewrite H.
    destruct (has_MMX c), t; reflexivity.
  - intros H; unfold technique_selector, partial_specialization; rewrite H.
    destruct (has_MMX c), (has_SSE2 c), t; reflexivity.
  - intros H; unfold technique_selector, partial_specialization; rewrite H.
    destruct (has_MMX c), (has_SSE2 c), (has_AVX2 c), t; reflexivity.
  - intros tech He Hp; unfold technique_selector; rewrite He, Hp; reflexivity.
  - intros tech H. apply selector_unspecialized, H.
  - intros tech H He. unfold technique_selector; rewrite He; clear He.
    revert H; unfold partial_specialization, compiled_in.
    destruct c as [[] [] [] [] [] []];
      cbn [has_MMX has_SSE2 has_AVX2 has_AVX512 has_NEON has_GPU];
      repeat match goal with
             | |- context [Z.eqb tech ?X] =>
                 destruct (Z.eqb_spec tech X) as [-> | ?]
             end;
      cbn; intros; try discriminate; reflexivity.
  - apply selector_unspecialized; reflexivity.
  - apply selector_unspecialized; reflexivity.
  - apply selector_unspecialized; reflexivity.
Qed.

Lemma technique_selector_resolution_witness :
  technique_selector avx2_build
    int32_t MMX = backend_mmx /\
  technique_selector avx2_build
    int32_t AVX512 = backend_scalar /\
  technique_selector avx2_build
    int32_t 77 = backend_scalar.
Proof.
  destruct (technique_selector_resolution
              avx2_build int32_t)
    as (_ & _ & Hmmx & _ & _ & _ & _ & Hnone & Hoff & _).
  refine (conj (Hmmx eq_refl) (conj (Hoff AVX512 eq_refl eq_refl) (Hnone 77 eq_refl))).
Defined.

(** C6.  In every build that compiles, [technt2string] returns one of the
    canonical names: "Scalar", or the name of the technique asked for when
    the macro of that technique is defined; a value that has no enumerator,
    or whose macro is not defined, is rendered "Scalar".  "NEON" is not
    among the names returned: a build with [__NEON__] does not compile. *)
Theorem technt2string_canonical :
  (forall c : capabilities, has_NEON c = true -> buildable c = false) /\
  (forall (c : capabilities) (tech : techn_t),
      buildable c = true ->
      (technt2string c tech = "Scalar"%string \/
       (technt2string c tech = "MMX"%string /\ has_MMX c = true /\ tech = MMX) \/
       (technt2string c tech = "SSE"%string /\ has_SSE2 c = true /\ tech = SSE) \/
       (technt2string c tech = "AVX"%string /\ has_AVX2 c = true /\ tech = AVX) \/
       (technt2string c tech = "AVX512"%string /\ has_AVX512 c = true /\
        tech = AVX512) \/
       (technt2string c tech = "OpenCL"%string /\ has_GPU c = true /\
        tech = OpenCL) \/
       (technt2string c tech = "Vulkan"%string /\ has_GPU c = true /\
        tech = Vulkan)) /\
      technt2string c tech <> "NEON"%string /\
      (compiled_in c tech = false -> technt2string c tech = "Scalar"%string) /\
      (~ In tech [Scalar; MMX; SSE; AVX; AVX512; OpenCL; Vulkan; internal] ->
       technt2string c tech = "Scalar"%string) /\
      technt2string c Scalar = "Scalar"%string /\
      technt2string c internal = "Scalar"%string /\
      (has_MMX c = true -> technt2string c MMX = "MMX"%string) /\
      technt2string c SSE = "SSE"%string /\
      technt2string c AVX = "AVX"%string /\
      (has_AVX512 c = true -> technt2string c AVX512 = "AVX512"%string) /\
      (has_GPU c = true -> technt2string c OpenCL = "OpenCL"%string) /\
      (has_GPU c = true -> technt2string c Vulkan = "Vulkan"%string)).
Proof.
  split.
  - intros c H. unfold buildable. rewrite H. apply andb_false_r.
  - intros c tech Hb. unfold buildable in Hb.
    apply andb_prop in Hb as (Hb & Hn).
    apply andb_prop in Hb as (Hs & Ha).
    apply negb_true_iff in Hn.
    unfold technt2string, compiled_in.
    destruct c as [m s a a5 n g];
      cbn [has_MMX has_SSE2 has_AVX2 has_AVX512 has_NEON has_GPU] in *.
    subst s a n. cbn [andb].
    split; [|split; [|split; [|split]]].
    + destruct m, a5, g; cbn [andb];
        repeat match goal with
               | |- context [Z.eqb tech ?X] =>
                   destruct (Z.eqb_spec tech X) as [-> | ?]
               end;
        cbn; auto 15.
    + destruct m, a5, g; cbn [andb];
        repeat match goal with
               | |- context [Z.eqb tech ?X] =>
                   destruct (Z.eqb_spec tech X) as [-> | ?]
               end;
        cbn; discriminate.
    + repeat match goal with
             | |- context [Z.eqb tech ?X] =>
                 destruct (Z.eqb_spec tech X) as [-> | ?]
             end;
        cbn; intros H; try discriminate H; try subst;
        rewrite ?andb_false_r; reflexivity.
    + cbn [In]; intros H.
      repeat match goal with
             | |- context [Z.eqb tech ?X] =>
                 destruct (Z.eqb_spec tech X) as [-> | ?]
             end;
        try (exfalso; tauto).
      rewrite ?andb_false_r; reflexivity.
    + destruct m, a5, g; cbn; repeat split; intros; try discriminate; reflexivity.
Qed.

Lemma technt2string_canonical_witness :
  buildable avx2_build = true /\
  technt2string avx2_build AVX512 = "Scalar"%string /\
  technt2string avx2_build 3 = "Scalar"%string /\
  technt2string avx2_build SSE = "SSE"%string.
Proof.
  destruct technt2string_canonical as (_ & Hall).
  destruct (Hall avx2_build AVX512 eq_refl) as (_ & _ & Hoff & _).
  destruct (Hall avx2_build 3 eq_refl) as (_ & _ & _ & Hunk & _ & _ & _ & Hsse & _).
  refine (conj eq_refl (conj (Hoff eq_refl) (conj (Hunk _) Hsse))).
  cbn [In]; unfold Scalar, MMX, SSE, AVX, AVX512, OpenCL, Vulkan, internal.
  intros H; repeat (destruct H as [H | H]; [discriminate H|]); exact H.
Defined.

(** ** Adaptive value *)

Section IncrementDecrement.

Import adaptive_number.

(** Where a backend computes the scalar sum and difference. *)
Lemma backend_add_wraps k t a b :
  valid_width t \/ k = backend_scalar \/ k = backend_mmx ->
  backend_add k t a b = wrap t (a + b).
Proof.
  intros [Hw | [-> | ->]]; cbn [backend_add].
  - destruct k; cbn [backend_add];
      auto using mmx_add_scalar, sse_add_scalar, avx_add_scalar.
  - reflexivity.
  - apply mmx_add_scalar.
Qed.

Lemma backend_sub_wraps tg k t a b :
  instantiable tg k op_sub t = true ->
  valid_width t \/ k = backend_scalar \/ k = backend_mmx ->
  backend_sub k t a b = wrap t (a - b).
Proof.
  intros Hi [Hw | [-> | ->]]; cbn [backend_sub].
  - destruct k; cbn [backend_sub];
      auto using mmx_sub_scalar, sse_sub_scalar.
    discriminate Hi.
  - reflexivity.
  - apply mmx_sub_scalar.
Qed.

Lemma wrap_add_sub_1 t v : in_range t v -> wrap t (wrap t (v + 1) - 1) = v.
Proof.
  intros Hv. rewrite <- (wrap_id t v Hv) at 2.
  apply wrap_cong.
  replace v with (v + 1 - 1) at 2 by lia.
  apply cong_sub; [apply cong_wrap | apply cong_refl].
Qed.

(** The successor and the predecessor modulo [2 ^ bits] differ from the
    value itself. *)
Lemma wrap_step_neq t v d :
  in_range t v -> d = 1 \/ d = -1 -> wrap t (v + d) <> v.
Proof.
  intros Hv Hd Heq.
  pose proof (bits_pos t) as Hb.
  assert (Hm : 256 <= 2 ^ bits t)
    by (change 256 with (2 ^ 8); apply Z.pow_le_mono_r; lia).
  pose proof (cong_wrap t (v + d)) as Hc.
  rewrite Heq in Hc; unfold cong in Hc.
  rewrite (Zplus_mod v d) in Hc.
  pose proof (Z.mod_pos_bound v (2 ^ bits t) ltac:(lia)) as Hr.
  set (m := 2 ^ bits t) in *. set (r := v mod m) in *.
  destruct Hd as [-> | ->].
  - rewrite (Z.mod_small 1 m) in Hc by lia.
    destruct (Z.eq_dec (r + 1) m) as [E | E].
    + rewrite E, Z.mod_same in Hc by lia. lia.
    + rewrite Z.mod_small in Hc by lia. lia.
  - replace (-1 mod m) with (m - 1) in Hc
      by (apply Z.mod_unique with (q := -1); lia).
    destruct (Z.eq_dec r 0) as [E | E].
    + rewrite E in Hc. rewrite Z.mod_small in Hc by lia. lia.
    + replace (r + (m - 1)) with (r - 1 + 1 * m) in Hc by lia.
      rewrite Z.mod_add, Z.mod_small in Hc by lia. lia.
Qed.

End IncrementDecrement.

(** C7, as stated, fails: a 16-byte signed value bound to the SSE backend
    that holds 5, strictly inside its range, holds 0 after one increment and
    one decrement. *)
Lemma inc_dec_int128_sse_counterexample :
  technique_selector avx2_build (other_int 16 true) SSE = backend_sse /\
  min_value (other_int 16 true) < adaptive_number.value int128_sse_5
  < max_value (other_int 16 true) /\
  adaptive_number.value
    (snd (adaptive_number.operator_post_inc avx2_build int128_sse_5)) = 0 /\
  adaptive_number.value
    (snd (adaptive_number.operator_post_dec avx2_build
            (snd (adaptive_number.operator_post_inc avx2_build int128_sse_5)))) = 0 /\
  adaptive_number.value
    (snd (adaptive_number.operator_post_dec avx2_build
            (snd (adaptive_number.operator_post_inc avx2_build int128_sse_5))))
  <> adaptive_number.value int128_sse_5.
Proof.
  split; [reflexivity|]. split; [vm_compute; split; reflexivity|].
  split; [reflexivity|]. split; [reflexivity | vm_compute; discriminate].
Qed.

(** C7, amended.  For every adaptive value whose [operator--] can be
    instantiated (its backend is not the AVX one), whose bound width is 1,
    2, 4 or 8 bytes or whose backend is the scalar or the MMX one, and which
    holds a value [v] strictly inside the range of its type: one increment,
    then one decrement, each the backend's add or sub with the literal 1,
    leave it holding [v]. *)
Theorem increment_then_decrement (tg : target) (c : capabilities)
  (TINT : int_type) (TTECH : techn_t) (x : adaptive_number.t TINT TTECH) :
  instantiable tg (technique_selector c TINT TTECH) op_add TINT = true ->
  instantiable tg (technique_selector c TINT TTECH) op_sub TINT = true ->
  valid_width TINT \/
  technique_selector c TINT TTECH = backend_scalar \/
  technique_selector c TINT TTECH = backend_mmx ->
  min_value TINT < adaptive_number.value x < max_value TINT ->
  let x1 := snd (adaptive_number.operator_post_inc c x) in
  let x2 := snd (adaptive_number.operator_post_dec c x1) in
  adaptive_number.value x1
  = backend_add (technique_selector c TINT TTECH) TINT (adaptive_number.value x) 1 /\
  adaptive_number.value x2
  = backend_sub (technique_selector c TINT TTECH) TINT (adaptive_number.value x1) 1 /\
  adaptive_number.value x2 = adaptive_number.value x.
Proof.
  intros _ Hi Hk Hv x1 x2. split; [reflexivity|]. split; [reflexivity|].
  subst x1 x2. destruct x as [v].
  unfold adaptive_number.operator_post_inc, adaptive_number.operator_post_dec,
    adaptive_number.value, adaptive_number.backend_type in *.
  cbn [snd adaptive_number.m_tiValue] in *.
  rewrite backend_add_wraps by exact Hk.
  rewrite (backend_sub_wraps tg) by assumption.
  apply wrap_add_sub_1. unfold in_range; lia.
Qed.

Lemma increment_then_decrement_witness :
  instantiable avx2_target (technique_selector avx2_build int64_t SSE) op_sub
    int64_t = true /\
  valid_width int64_t /\
  min_value int64_t < adaptive_number.value int64_sse_41 < max_value int64_t /\
  adaptive_number.value
    (snd (adaptive_number.operator_post_dec avx2_build
            (snd (adaptive_number.operator_post_inc avx2_build int64_sse_41))))
  = adaptive_number.value int64_sse_41.
Proof.
  assert (Hw : valid_width int64_t) by (right; right; right; reflexivity).
  assert (Hv : min_value int64_t < adaptive_number.value int64_sse_41
               < max_value int64_t)
    by (vm_compute; split; reflexivity).
  destruct (increment_then_decrement avx2_target avx2_build int64_t SSE
              int64_sse_41 eq_refl eq_refl (or_introl Hw) Hv) as (_ & _ & H).
  exact (conj eq_refl (conj Hw (conj Hv H))).
Defined.

(** C10.  The postfix operators update the held value and return the object
    as updated: what [x++] returns holds [add(v, 1)], what [x--] returns
    holds [sub(v, 1)], and so does [x] afterwards; where the backend
    computes the scalar sum and difference, what is returned is not the
    prior value [v].  So the code does wherever the operator can be
    instantiated: [x--] on a value bound to the AVX backend cannot, for
    instance on an [adaptive_number<int32_t, techn_t::AVX>]. *)
Theorem postfix_returns_updated_value :
  (technique_selector avx2_build int32_t AVX = backend_avx /\
   forall tg : target,
     instantiable tg (technique_selector avx2_build int32_t AVX) op_sub int32_t
     = false) /\
  (forall (tg : target) (c : capabilities) (TINT : int_type) (TTECH : techn_t)
          (x : adaptive_number.t TINT TTECH),
      instantiable tg (technique_selector c TINT TTECH) op_add TINT = true /\
      adaptive_number.value (fst (adaptive_number.operator_post_inc c x))
      = backend_add (technique_selector c TINT TTECH) TINT
          (adaptive_number.value x) 1 /\
      adaptive_number.value (snd (adaptive_number.operator_post_inc c x))
      = backend_add (technique_selector c TINT TTECH) TINT
          (adaptive_number.value x) 1 /\
      (instantiable tg (technique_selector c TINT TTECH) op_sub TINT = true ->
       adaptive_number.value (fst (adaptive_number.operator_post_dec c x))
       = backend_sub (technique_selector c TINT TTECH) TINT
           (adaptive_number.value x) 1 /\
       adaptive_number.value (snd (adaptive_number.operator_post_dec c x))
       = backend_sub (technique_selector c TINT TTECH) TINT
           (adaptive_number.value x) 1) /\
      (valid_width TINT \/
       technique_selector c TINT TTECH = backend_scalar \/
       technique_selector c TINT TTECH = backend_mmx ->
       in_range TINT (adaptive_number.value x) ->
       adaptive_number.value (fst (adaptive_number.operator_post_inc c x))
       <> adaptive_number.value x /\
       (instantiable tg (technique_selector c TINT TTECH) op_sub TINT = true ->
        adaptive_number.value (fst (adaptive_number.operator_post_dec c x))
        <> adaptive_number.value x))).
Proof.
  split; [split; [reflexivity | intros tg; reflexivity]|].
  intros tg c TINT TTECH x.
  split; [destruct (technique_selector c TINT TTECH); reflexivity|].
  do 2 (split; [reflexivity|]).
  split; [intros _; split; reflexivity|].
  intros Hk Hv. destruct x as [v].
  unfold adaptive_number.operator_post_inc, adaptive_number.operator_post_dec,
    adaptive_number.value, adaptive_number.backend_type in *.
  cbn [fst adaptive_number.m_tiValue] in *.
  rewrite backend_add_wraps by exact Hk.
  split.
  - apply wrap_step_neq; [exact Hv | left; reflexivity].
  - intros Hi. rewrite (backend_sub_wraps tg) by assumption.
    change (v - 1) with (v + -1).
    apply wrap_step_neq; [exact Hv | right; reflexivity].
Qed.

Lemma postfix_returns_updated_value_witness :
  in_range int32_t (adaptive_number.value int32_scalar_1) /\
  instantiable avx2_target (technique_selector avx2_build int32_t Scalar)
    op_sub int32_t = true /\
  adaptive_number.value
    (fst (adaptive_number.operator_post_dec avx2_build int32_scalar_1)) = 0 /\
  adaptive_number.value
    (fst (adaptive_number.operator_post_dec avx2_build int32_scalar_1))
  <> adaptive_number.value int32_scalar_1.
Proof.
  assert (Hv : in_range int32_t (adaptive_number.value int32_scalar_1))
    by (vm_compute; split; discriminate).
  destruct postfix_returns_updated_value as (_ & Hall).
  destruct (Hall avx2_target avx2_build int32_t Scalar int32_scalar_1)
    as (_ & _ & _ & Hret & Hneq).
  destruct (Hret eq_refl) as (Hdec & _).
  destruct (Hneq (or_intror (or_introl eq_refl)) Hv) as (_ & Hne).
  refine (conj Hv (conj eq_refl (conj _ (Hne eq_refl)))).
  rewrite Hdec; reflexivity.
Defined.

(** C8, at the call [x.set(2)] on an [int32s_t] that holds 1: [set] is
    const-qualified and assigns a member that is not [mutable], so the call
    is ill-formed and [x] never comes to hold 2. *)
Theorem set_const_qualified_rejected :
  adaptive_number.set 2 int32_scalar_1 = None /\
  forall (TINT : int_type) (TTECH : techn_t) (x : adaptive_number.t TINT TTECH)
         (v : Z),
    adaptive_number.set v x = None /\
    exists x', adaptive_number.assign_m_tiValue adaptive_number.cv_unqualified v x
               = Some x' /\
               adaptive_number.value x' = v /\
               adaptive_number.get_techniq x' = adaptive_number.get_techniq x.
Proof.
  split; [reflexivity|]. intros TINT TTECH x v. split; [reflexivity|].
  exists (adaptive_number.Build v). repeat split.
Qed.

(** * Further properties of the code *)

(** ** Shared facts *)

Section MoreFacts.

Lemma in_range_0 t : in_range t 0.
Proof.
  pose proof (bits_pos t) as Hb.
  pose proof (pow2_pos (bits t - 1) ltac:(lia)).
  pose proof (pow2_pos (bits t) ltac:(lia)).
  unfold in_range, min_value, max_value; destruct (is_signed t); lia.
Qed.

Lemma wrap_0 t : wrap t 0 = 0.
Proof. apply wrap_id, in_range_0. Qed.

Lemma in_range_1 t : in_range t 1.
Proof.
  pose proof (bits_pos t) as Hb.
  assert (2 <= 2 ^ (bits t - 1))
    by (change 2 with (2 ^ 1) at 1; apply Z.pow_le_mono_r; lia).
  pose proof (half_double (bits t) ltac:(lia)).
  unfold in_range, min_value, max_value; destruct (is_signed t); lia.
Qed.

Lemma backend_mul_wraps tg k t a b :
  instantiable tg k op_mul t = true ->
  valid_width t \/ k = backend_scalar \/ k = backend_mmx \/ k = backend_sse ->
  backend_mul k t a b = wrap t (a * b).
Proof.
  intros _ [Hw | [-> | [-> | ->]]]; cbn [backend_mul].
  - destruct k; cbn [backend_mul];
      auto using mmx_mul_scalar, sse_mul_scalar, avx_mul_scalar.
  - reflexivity.
  - apply mmx_mul_scalar.
  - apply sse_mul_scalar.
Qed.

(** Adding and then subtracting the same operand, each time with
    wrap-around, gives a value of the type back. *)
Lemma wrap_add_sub_cancel t a b :
  in_range t a ->
  wrap t (wrap t (a + b) - b) = a /\ wrap t (wrap t (a - b) + b) = a.
Proof.
  intros Ha.
  split; rewrite <- (wrap_id t a Ha) at 2; apply wrap_cong.
  - replace a with (a + b - b) at 2 by lia.
    apply cong_sub; [apply cong_wrap | apply cong_refl].
  - replace a with (a - b + b) at 2 by lia.
    apply cong_add; [apply cong_wrap | apply cong_refl].
Qed.

End MoreFacts.

(** ** Backends *)

(** X1.  The MMX backend ends each of add, sub and mul in the scalar
    expression, and the SSE backend does so for mul: they return the scalar
    result for a type of any size, not only for the four sizes with a
    vector branch. *)
Theorem mmx_and_sse_mul_any_width (t : int_type) (a b : Z) :
  technique_backend_mmx.add t a b = technique_backend_scalar.add t a b /\
  technique_backend_mmx.sub t a b = technique_backend_scalar.sub t a b /\
  technique_backend_mmx.mul t a b = technique_backend_scalar.mul t a b /\
  technique_backend_sse.mul t a b = technique_backend_scalar.mul t a b.
Proof.
  repeat split;
    auto using mmx_add_scalar, mmx_sub_scalar, mmx_mul_scalar, sse_mul_scalar.
Qed.


Section ArithmeticLaws.

Variable tg : target.
Variable k : backend.
Variable t : int_type.
Hypothesis Hsub : instantiable tg k op_sub t = true.
Hypothesis Hmul : instantiable tg k op_mul t = true.
Hypothesis Hk : valid_width t \/ k = backend_scalar \/ k = backend_mmx.

Lemma computing_backend_mul :
  valid_width t \/ k = backend_scalar \/ k = backend_mmx \/ k = backend_sse.
Proof. tauto. Qed.

(** X4.  Where the members can be instantiated and the backend computes
    (the four sizes, or the scalar or MMX backend at any size): 0 is
    neutral for add and sub, 1 for mul, a value minus itself is 0 and a
    value times 0 is 0. *)
Theorem backend_identity_laws (a : Z) :
  in_range t a ->
  backend_add k t a 0 = a /\ backend_add k t 0 a = a /\
  backend_sub k t a 0 = a /\ backend_sub k t a a = 0 /\
  backend_mul k t a 1 = a /\ backend_mul k t 1 a = a /\
  backend_mul k t a 0 = 0 /\ backend_mul k t 0 a = 0.
Proof.
  intros Ha.
  rewrite !backend_add_wraps by exact Hk.
  rewrite !(backend_sub_wraps tg) by assumption.
  rewrite !(backend_mul_wraps tg) by (exact Hmul || exact computing_backend_mul).
  rewrite Z.add_0_r, Z.add_0_l, Z.sub_0_r, Z.sub_diag, Z.mul_1_r, Z.mul_1_l,
    Z.mul_0_r, Z.mul_0_l.
  rewrite wrap_0, (wrap_id t a Ha). repeat split.
Qed.

(** X5.  Under the same condition add and mul are commutative and
    associative and mul distributes over add and sub, for all operands,
    overflowing ones too: the intermediate wrap-arounds do not show in the
    result. *)
Theorem backend_ring_laws (a b c : Z) :
  backend_add k t a b = backend_add k t b a /\
  backend_mul k t a b = backend_mul k t b a /\
  backend_add k t (backend_add k t a b) c
  = backend_add k t a (backend_add k t b c) /\
  backend_mul k t (backend_mul k t a b) c
  = backend_mul k t a (backend_mul k t b c) /\
  backend_mul k t a (backend_add k t b c)
  = backend_add k t (backend_mul k t a b) (backend_mul k t a c) /\
  backend_mul k t a (backend_sub k t b c)
  = backend_sub k t (backend_mul k t a b) (backend_mul k t a c).
Proof.
  rewrite !backend_add_wraps by exact Hk.
  rewrite !(backend_sub_wraps tg) by assumption.
  rewrite !(backend_mul_wraps tg) by (exact Hmul || exact computing_backend_mul).
  repeat split.
  - f_equal; lia.
  - f_equal; lia.
  - apply wrap_cong.
    apply cong_trans with (a + b + c);
      [apply cong_add; [apply cong_wrap | apply cong_refl]|].
    rewrite <- Z.add_assoc.
    apply cong_add; [apply cong_refl | apply cong_sym, cong_wrap].
  - apply wrap_cong.
    apply cong_trans with (a * b * c);
      [apply cong_mul; [apply cong_wrap | apply cong_refl]|].
    rewrite <- Z.mul_assoc.
    apply cong_mul; [apply cong_refl | apply cong_sym, cong_wrap].
  - apply wrap_cong.
    apply cong_trans with (a * (b + c));
      [apply cong_mul; [apply cong_refl | apply cong_wrap]|].
    rewrite Z.mul_add_distr_l.
    apply cong_add; apply cong_sym, cong_wrap.
  - apply wrap_cong.
    apply cong_trans with (a * (b - c));
      [apply cong_mul; [apply cong_refl | apply cong_wrap]|].
    rewrite Z.mul_sub_distr_l.
    apply cong_sub; apply cong_sym, cong_wrap.
Qed.

(** X6.  Where [sub] can be instantiated and the backend computes, sub
    undoes add and add undoes sub, for every value [a] of the type and
    every [b], also when the intermediate result wrapped around. *)
Theorem backend_add_sub_inverse (a b : Z) :
  in_range t a ->
  backend_sub k t (backend_add k t a b) b = a /\
  backend_add k t (backend_sub k t a b) b = a.
Proof.
  intros Ha.
  rewrite !backend_add_wraps by exact Hk.
  rewrite !(backend_sub_wraps tg) by assumption.
  apply wrap_add_sub_cancel, Ha.
Qed.

End ArithmeticLaws.

Lemma backend_identity_laws_witness :
  instantiable avx2_target backend_sse op_sub uint16_t = true /\
  instantiable avx2_target backend_sse op_mul uint16_t = true /\
  in_range uint16_t 65535 /\
  backend_add backend_sse uint16_t 65535 0 = 65535 /\
  backend_mul backend_sse uint16_t 65535 1 = 65535 /\
  backend_sub backend_sse uint16_t 65535 65535 = 0.
Proof.
  assert (Hw : valid_width uint16_t) by (right; left; reflexivity).
  assert (Ha : in_range uint16_t 65535) by (vm_compute; split; discriminate).
  destruct (backend_identity_laws avx2_target backend_sse uint16_t
              eq_refl eq_refl (or_introl Hw) 65535 Ha)
    as (H1 & _ & _ & H2 & H3 & _).
  exact (conj eq_refl (conj eq_refl (conj Ha (conj H1 (conj H3 H2))))).
Defined.

Lemma backend_ring_laws_witness :
  instantiable avx2_target backend_sse op_sub int8_t = true /\
  instantiable avx2_target backend_sse op_mul int8_t = true /\
  backend_add backend_sse int8_t (backend_add backend_sse int8_t 100 100) (-100)
  = backend_add backend_sse int8_t 100 (backend_add backend_sse int8_t 100 (-100)).
Proof.
  assert (Hw : valid_width int8_t) by (left; reflexivity).
  destruct (backend_ring_laws avx2_target backend_sse int8_t
              eq_refl eq_refl (or_introl Hw) 100 100 (-100))
    as (_ & _ & H & _).
  exact (conj eq_refl (conj eq_refl H)).
Defined.

Lemma backend_add_sub_inverse_witness :
  instantiable avx2_target backend_mmx op_sub int8_t = true /\
  in_range int8_t 100 /\
  backend_sub backend_mmx int8_t (backend_add backend_mmx int8_t 100 100) 100 = 100.
Proof.
  assert (Ha : in_range int8_t 100) by (vm_compute; split; discriminate).
  destruct (backend_add_sub_inverse avx2_target backend_mmx int8_t eq_refl
              (or_intror (or_intror eq_refl)) 100 100 Ha) as (H & _).
  exact (conj eq_refl (conj Ha H)).
Defined.

(** ** Division *)

Section MoreDivisionFacts.

(** The divisor times the truncated quotient lies between 0 and the
    dividend. *)
Lemma quot_mul_between a b :
  b <> 0 ->
  (0 <= a -> 0 <= b * Z.quot a b <= a) /\
  (a <= 0 -> a <= b * Z.quot a b <= 0).
Proof.
  intros Hb; split; intros Ha.
  - apply Z.mul_quot_le; assumption.
  - replace a with (- (- a)) at 2 3 by lia.
    rewrite Z.quot_opp_l by exact Hb.
    pose proof (Z.mul_quot_le (- a) b ltac:(lia) Hb). lia.
Qed.

Lemma in_range_between t a z :
  in_range t a -> (0 <= z <= a \/ a <= z <= 0) -> in_range t z.
Proof.
  intros Ha Hz. pose proof (in_range_0 t) as H0.
  unfold in_range in *; lia.
Qed.

Lemma native_div_quot t a b :
  in_range t a -> in_range t b -> b <> 0 ->
  ~ (is_signed t = true /\ a = min_value t /\ b = -1) ->
  native_div t a b = Value (Z.quot a b).
Proof.
  intros Ha Hb Hnz Hex. unfold native_div.
  destruct (Z.eqb_spec b 0) as [|_]; [contradiction|].
  destruct (is_signed t && ((sizeof t =? 4) || (sizeof t =? 8))
            && (a =? min_value t) && (b =? -1)) eqn:Hov.
  - exfalso; apply Hex.
    apply andb_prop in Hov as (Hov & Hb1).
    apply andb_prop in Hov as (Hov & Ha1).
    apply andb_prop in Hov as (Hs & _).
    apply Z.eqb_eq in Ha1, Hb1. auto.
  - f_equal. apply wrap_id, quot_in_range; assumption.
Qed.

Lemma backend_div_native k t a b : backend_div k t a b = native_div t a b.
Proof. destruct k; reflexivity. Qed.

End MoreDivisionFacts.

(** X7.  Division composes with mul and sub as quotient and remainder: for
    values [a], [b] of the type with [b <> 0] (the least signed value
    divided by [-1] apart) and a backend whose [sub] and [mul] can be
    instantiated and compute, [mul(div(a, b), b)] does not wrap, and
    [sub(a, mul(div(a, b), b))] is the remainder of the truncated division:
    smaller than [b] in magnitude and of the sign of [a]. *)
Theorem div_mul_sub_remainder (tg : target) (k : backend) (t : int_type)
  (a b : Z) :
  instantiable tg k op_sub t = true ->
  instantiable tg k op_mul t = true ->
  valid_width t \/ k = backend_scalar \/ k = backend_mmx ->
  in_range t a -> in_range t b -> b <> 0 ->
  ~ (is_signed t = true /\ a = min_value t /\ b = -1) ->
  exists q : Z,
    backend_div k t a b = Value q /\
    backend_mul k t q b = q * b /\
    backend_sub k t a (backend_mul k t q b) = a - q * b /\
    a - q * b = Z.rem a b /\
    Z.abs (a - q * b) < Z.abs b /\
    0 <= (a - q * b) * a.
Proof.
  intros Hisub Himul Hk Ha Hb Hnz Hex. exists (Z.quot a b).
  pose proof (quot_mul_between a b Hnz) as (Hpos & Hneg).
  pose proof (Z.quot_rem' a b) as Hqr.
  assert (Hrem : a - Z.quot a b * b = Z.rem a b) by lia.
  assert (Hqb : in_range t (Z.quot a b * b)).
  { apply in_range_between with a; [exact Ha|].
    rewrite (Z.mul_comm _ b).
    destruct (Z.le_ge_cases 0 a); [left; auto | right; auto]. }
  assert (Hr : in_range t (a - Z.quot a b * b)).
  { apply in_range_between with a; [exact Ha|].
    rewrite (Z.mul_comm _ b).
    destruct (Z.le_ge_cases 0 a);
      [left; specialize (Hpos ltac:(assumption)); lia
      |right; specialize (Hneg ltac:(assumption)); lia]. }
  assert (Hmul : backend_mul k t (Z.quot a b) b = Z.quot a b * b).
  { rewrite (backend_mul_wraps tg) by (exact Himul || tauto).
    apply wrap_id, Hqb. }
  split; [rewrite backend_div_native; apply native_div_quot; assumption|].
  split; [exact Hmul|].
  split; [rewrite Hmul, (backend_sub_wraps tg) by assumption;
          apply wrap_id, Hr|].
  split; [exact Hrem|].
  rewrite Hrem. split; [apply Z.rem_bound_abs, Hnz | apply Z.rem_sign_mul, Hnz].
Qed.

Lemma div_mul_sub_remainder_witness :
  instantiable avx2_target backend_sse op_sub int16_t = true /\
  instantiable avx2_target backend_sse op_mul int16_t = true /\
  in_range int16_t (-7) /\ in_range int16_t 2 /\
  exists q : Z,
    backend_div backend_sse int16_t (-7) 2 = Value q /\
    backend_sub backend_sse int16_t (-7) (backend_mul backend_sse int16_t q 2)
    = -7 - q * 2.
Proof.
  assert (Hw : valid_width int16_t) by (right; left; reflexivity).
  assert (Ha : in_range int16_t (-7)) by (vm_compute; split; discriminate).
  assert (Hb : in_range int16_t 2) by (vm_compute; split; discriminate).
  assert (Hnz : 2 <> 0) by discriminate.
  assert (Hex : ~ (is_signed int16_t = true /\ -7 = min_value int16_t /\ 2 = -1))
    by (intros (_ & _ & H); discriminate H).
  destruct (div_mul_sub_remainder avx2_target backend_sse int16_t (-7) 2
              eq_refl eq_refl (or_introl Hw) Ha Hb Hnz Hex)
    as (q & Hq & _ & Hs & _).
  exact (conj eq_refl (conj eq_refl
           (conj Ha (conj Hb (ex_intro _ q (conj Hq Hs)))))).
Defined.

(** X8.  On a signed type narrower than [int] the least value divided by
    [-1] does not fault: the quotient is computed in [int] and the
    conversion of the result wraps it to the least value again. *)
Theorem div_narrow_min_by_minus_one (k : backend) (t : int_type) :
  is_signed t = true -> sizeof t < 4 ->
  backend_div k t (min_value t) (-1) = Value (min_value t).
Proof.
  intros Hs Hsz. rewrite backend_div_native. unfold native_div.
  change (-1 =? 0) with false. cbv iota.
  replace (sizeof t =? 4) with false by (symmetry; apply Z.eqb_neq; lia).
  replace (sizeof t =? 8) with false by (symmetry; apply Z.eqb_neq; lia).
  cbn [orb]. rewrite andb_false_r. cbn [andb]. f_equal.
  pose proof (bits_pos t) as Hb.
  pose proof (pow2_pos (bits t - 1) ltac:(lia)) as Hp.
  pose proof (half_double (bits t) ltac:(lia)) as Hh.
  unfold min_value, wrap, signed; rewrite Hs.
  change (-1) with (- (1)).
  rewrite Z.quot_opp_opp, Z.quot_1_r by lia.
  replace (2 ^ (bits t - 1) + 2 ^ (bits t - 1)) with (2 ^ bits t) by lia.
  rewrite Z.mod_same by lia. lia.
Qed.

Lemma div_narrow_min_by_minus_one_witness :
  is_signed int16_t = true /\ sizeof int16_t < 4 /\
  backend_div backend_avx int16_t (-32768) (-1) = Value (-32768).
Proof.
  assert (Hsz : sizeof int16_t < 4) by reflexivity.
  exact (conj eq_refl
           (conj Hsz (div_narrow_min_by_minus_one backend_avx int16_t eq_refl Hsz))).
Defined.

(** X9.  On an unsigned type division returns for every nonzero divisor:
    the result is the floor of [a / b], it is at most [a], and it is 0
    exactly when [a < b]. *)
Theorem div_unsigned (k : backend) (t : int_type) (a b : Z) :
  is_signed t = false -> in_range t a -> in_range t b -> b <> 0 ->
  backend_div k t a b = Value (a / b) /\
  0 <= a / b <= a /\
  (a / b = 0 <-> a < b).
Proof.
  intros Hs Ha Hb Hnz.
  assert (H0a : 0 <= a) by (unfold in_range, min_value in Ha; rewrite Hs in Ha; lia).
  assert (H0b : 0 < b) by (unfold in_range, min_value in Hb; rewrite Hs in Hb; lia).
  split.
  - rewrite backend_div_native, native_div_quot; try assumption.
    + f_equal. apply Z.quot_div_nonneg; lia.
    + rewrite Hs; intros (H & _); discriminate H.
  - split.
    + split; [apply Z.div_pos; lia|].
      apply Z.div_le_upper_bound; [lia | nia].
    + rewrite Z.div_small_iff by lia. lia.
Qed.

Lemma div_unsigned_witness :
  in_range uint8_t 200 /\ in_range uint8_t 7 /\
  backend_div backend_mmx uint8_t 200 7 = Value 28.
Proof.
  assert (Ha : in_range uint8_t 200) by (vm_compute; split; discriminate).
  assert (Hb : in_range uint8_t 7) by (vm_compute; split; discriminate).
  destruct (div_unsigned backend_mmx uint8_t 200 7 eq_refl Ha Hb ltac:(discriminate))
    as (H & _).
  exact (conj Ha (conj Hb H)).
Defined.

(** ** Adaptive value *)

(** X10.  For a bound width of 1, 2, 4 or 8 bytes the binary operators of
    the adaptive value give the scalar result whatever technique the value
    is bound to and whatever the build compiles in, wherever the member of
    the backend can be instantiated, and the compound assignments leave the
    object in the state the binary operator returns; [/] and [/=] are the
    plain division at every width. *)
Theorem operators_technique_independent (tg : target) (c : capabilities)
  (TINT : int_type) (TTECH : techn_t) (x y : adaptive_number.t TINT TTECH) :
  (valid_width TINT ->
   adaptive_number.value (adaptive_number.operator_add c x y)
   = wrap TINT (adaptive_number.value x + adaptive_number.value y) /\
   adaptive_number.operator_add_assign c x y = adaptive_number.operator_add c x y /\
   (instantiable tg (technique_selector c TINT TTECH) op_sub TINT = true ->
    adaptive_number.value (adaptive_number.operator_sub c x y)
    = wrap TINT (adaptive_number.value x - adaptive_number.value y) /\
    adaptive_number.operator_sub_assign c x y
    = adaptive_number.operator_sub c x y) /\
   (instantiable tg (technique_selector c TINT TTECH) op_mul TINT = true ->
    adaptive_number.value (adaptive_number.operator_mul c x y)
    = wrap TINT (adaptive_number.value x * adaptive_number.value y) /\
    adaptive_number.operator_mul_assign c x y
    = adaptive_number.operator_mul c x y)) /\
  adaptive_number.operator_div c x y
  = match native_div TINT (adaptive_number.value x) (adaptive_number.value y) with
    | Value z => Some (adaptive_number.Build z)
    | Fault => None
    end /\
  adaptive_number.operator_div_assign c x y = adaptive_number.operator_div c x y.
Proof.
  destruct x as [vx], y as [vy].
  unfold adaptive_number.operator_add, adaptive_number.operator_sub,
    adaptive_number.operator_mul, adaptive_number.operator_div,
    adaptive_number.operator_add_assign, adaptive_number.operator_sub_assign,
    adaptive_number.operator_mul_assign, adaptive_number.operator_div_assign,
    adaptive_number.value, adaptive_number.backend_type.
  cbn [adaptive_number.m_tiValue].
  split; [intros Hw | split; [rewrite backend_div_native|]; reflexivity].
  rewrite backend_add_wraps by tauto.
  split; [reflexivity|]. split; [reflexivity|]. split; intros Hi.
  - rewrite (backend_sub_wraps tg) by tauto. split; reflexivity.
  - rewrite (backend_mul_wraps tg) by tauto. split; reflexivity.
Qed.

Lemma operators_technique_independent_witness :
  valid_width int64_t /\
  instantiable avx2_target (technique_selector avx2_build int64_t SSE) op_mul
    int64_t = true /\
  adaptive_number.value
    (adaptive_number.operator_mul avx2_build int64_sse_41 int64_sse_41) = 1681.
Proof.
  assert (Hw : valid_width int64_t) by (right; right; right; reflexivity).
  destruct (operators_technique_independent avx2_target avx2_build int64_t SSE
              int64_sse_41 int64_sse_41) as (H & _).
  destruct (H Hw) as (_ & _ & _ & Hmul).
  destruct (Hmul eq_refl) as (Hv & _).
  refine (conj Hw (conj eq_refl _)). rewrite Hv. reflexivity.
Defined.

(** X11.  [x += y] followed by [x -= y], and [x -= y] followed by [x += y],
    leave [x] as it was, for every value held by [x] and every [y], where
    [-=] can be instantiated and the backend computes. *)
Theorem compound_add_sub_round_trip (tg : target) (c : capabilities)
  (TINT : int_type) (TTECH : techn_t) (x y : adaptive_number.t TINT TTECH) :
  instantiable tg (technique_selector c TINT TTECH) op_sub TINT = true ->
  valid_width TINT \/
  technique_selector c TINT TTECH = backend_scalar \/
  technique_selector c TINT TTECH = backend_mmx ->
  in_range TINT (adaptive_number.value x) ->
  adaptive_number.operator_sub_assign c
    (adaptive_number.operator_add_assign c x y) y = x /\
  adaptive_number.operator_add_assign c
    (adaptive_number.operator_sub_assign c x y) y = x.
Proof.
  intros Hi Hk Hx. destruct x as [vx], y as [vy].
  unfold adaptive_number.operator_add_assign,
    adaptive_number.operator_sub_assign, adaptive_number.value,
    adaptive_number.backend_type in *.
  cbn [adaptive_number.m_tiValue] in *.
  rewrite !backend_add_wraps by exact Hk.
  rewrite !(backend_sub_wraps tg) by assumption.
  destruct (wrap_add_sub_cancel TINT vx vy Hx) as (H1 & H2).
  rewrite H1, H2. split; reflexivity.
Qed.

Lemma compound_add_sub_round_trip_witness :
  instantiable avx2_target (technique_selector avx2_build int64_t SSE) op_sub
    int64_t = true /\
  valid_width int64_t /\
  in_range int64_t (adaptive_number.value int64_sse_41) /\
  adaptive_number.operator_sub_assign avx2_build
    (adaptive_number.operator_add_assign avx2_build int64_sse_41 int64_sse_41)
    int64_sse_41 = int64_sse_41.
Proof.
  assert (Hw : valid_width int64_t) by (right; right; right; reflexivity).
  assert (Hv : in_range int64_t (adaptive_number.value int64_sse_41))
    by (vm_compute; split; discriminate).
  destruct (compound_add_sub_round_trip avx2_target avx2_build int64_t SSE
              int64_sse_41 int64_sse_41 eq_refl (or_introl Hw) Hv) as (H & _).
  exact (conj eq_refl (conj Hw (conj Hv H))).
Defined.

(** X12.  The relational operators order adaptive values by the value they
    hold: [==] holds exactly for objects in the same state, [!=] is its
    negation, [>] is [<] with the operands exchanged, [<=] and [>=] are the
    negations of [>] and [<], and of [<], [==], [>] exactly one holds. *)
Theorem relational_operators_total_order (TINT : int_type) (TTECH : techn_t)
  (x o : adaptive_number.t TINT TTECH) :
  (adaptive_number.operator_eq x o = true <-> x = o) /\
  adaptive_number.operator_ne x o = negb (adaptive_number.operator_eq x o) /\
  adaptive_number.operator_gt x o = adaptive_number.operator_lt o x /\
  adaptive_number.operator_le x o = negb (adaptive_number.operator_gt x o) /\
  adaptive_number.operator_ge x o = negb (adaptive_number.operator_lt x o) /\
  adaptive_number.operator_le x o
  = adaptive_number.operator_lt x o || adaptive_number.operator_eq x o /\
  ((adaptive_number.operator_lt x o = true /\
    adaptive_number.operator_eq x o = false /\
    adaptive_number.operator_gt x o = false) \/
   (adaptive_number.operator_lt x o = false /\
    adaptive_number.operator_eq x o = true /\
    adaptive_number.operator_gt x o = false) \/
   (adaptive_number.operator_lt x o = false /\
    adaptive_number.operator_eq x o = false /\
    adaptive_number.operator_gt x o = true)).
Proof.
  destruct x as [vx], o as [vo].
  unfold adaptive_number.operator_eq, adaptive_number.operator_ne,
    adaptive_number.operator_lt, adaptive_number.operator_gt,
    adaptive_number.operator_le, adaptive_number.operator_ge.
  cbn [adaptive_number.m_tiValue].
  rewrite Z.gtb_ltb, Z.geb_leb.
  destruct (Z.eqb_spec vx vo) as [E | E], (Z.ltb_spec vx vo), (Z.ltb_spec vo vx),
    (Z.leb_spec vx vo), (Z.leb_spec vo vx); try lia;
    (split; [split; [intros; try discriminate; f_equal; assumption
                    | intros H'; injection H' as H'; try contradiction; reflexivity]|]);
    cbn; intuition congruence.
Qed.

Section Boundaries.

Lemma wrap_max_succ t : wrap t (max_value t + 1) = min_value t.
Proof.
  pose proof (bits_pos t) as Hb.
  pose proof (pow2_pos (bits t) ltac:(lia)) as Hp.
  pose proof (half_double (bits t) ltac:(lia)) as Hh.
  unfold wrap, signed, unsigned, max_value, min_value.
  destruct (is_signed t).
  - replace (2 ^ (bits t - 1) - 1 + 1 + 2 ^ (bits t - 1)) with (2 ^ bits t) by lia.
    rewrite Z.mod_same by lia. lia.
  - replace (2 ^ bits t - 1 + 1) with (2 ^ bits t) by lia.
    apply Z.mod_same; lia.
Qed.

Lemma wrap_min_pred t : wrap t (min_value t - 1) = max_value t.
Proof.
  pose proof (bits_pos t) as Hb.
  pose proof (pow2_pos (bits t) ltac:(lia)) as Hp.
  pose proof (half_double (bits t) ltac:(lia)) as Hh.
  unfold wrap, signed, unsigned, max_value, min_value.
  destruct (is_signed t).
  - replace (- 2 ^ (bits t - 1) - 1 + 2 ^ (bits t - 1))
      with (2 ^ bits t - 1 + (-1) * 2 ^ bits t) by lia.
    rewrite Z.mod_add, Z.mod_small by lia. lia.
  - replace (0 - 1) with (2 ^ bits t - 1 + (-1) * 2 ^ bits t) by lia.
    rewrite Z.mod_add, Z.mod_small by lia. lia.
Qed.

End Boundaries.

(** X13.  At the ends of the range the postfix operators wrap around: an
    adaptive value that holds the greatest value of its type holds the
    least one after [x++], and one that holds the least holds the greatest
    after [x--], where the operator can be instantiated and the backend
    computes. *)
Theorem postfix_wraps_at_boundary (tg : target) (c : capabilities)
  (TINT : int_type) (TTECH : techn_t) (x : adaptive_number.t TINT TTECH) :
  valid_width TINT \/
  technique_selector c TINT TTECH = backend_scalar \/
  technique_selector c TINT TTECH = backend_mmx ->
  (adaptive_number.value x = max_value TINT ->
   adaptive_number.value (snd (adaptive_number.operator_post_inc c x))
   = min_value TINT) /\
  (instantiable tg (technique_selector c TINT TTECH) op_sub TINT = true ->
   adaptive_number.value x = min_value TINT ->
   adaptive_number.value (snd (adaptive_number.operator_post_dec c x))
   = max_value TINT).
Proof.
  intros Hk. destruct x as [v].
  unfold adaptive_number.operator_post_inc, adaptive_number.operator_post_dec,
    adaptive_number.value, adaptive_number.backend_type.
  cbn [snd adaptive_number.m_tiValue].
  rewrite backend_add_wraps by exact Hk.
  split; [intros ->; apply wrap_max_succ|].
  intros Hi ->. rewrite (backend_sub_wraps tg) by assumption.
  apply wrap_min_pred.
Qed.

Lemma postfix_wraps_at_boundary_witness :
  valid_width int64_t /\
  adaptive_number.value
    (snd (adaptive_number.operator_post_inc avx2_build
            (adaptive_number.Build 9223372036854775807
             : adaptive_number.t int64_t SSE)))
  = -9223372036854775808 /\
  instantiable avx2_target (technique_selector avx2_build int64_t SSE) op_sub
    int64_t = true /\
  adaptive_number.value
    (snd (adaptive_number.operator_post_dec avx2_build
            (adaptive_number.Build (-9223372036854775808)
             : adaptive_number.t int64_t SSE)))
  = 9223372036854775807.
Proof.
  assert (Hw : valid_width int64_t) by (right; right; right; reflexivity).
  destruct (postfix_wraps_at_boundary avx2_target avx2_build int64_t SSE
              (adaptive_number.Build 9223372036854775807) (or_introl Hw))
    as (Hinc & _).
  destruct (postfix_wraps_at_boundary avx2_target avx2_build int64_t SSE
              (adaptive_number.Build (-9223372036854775808)) (or_introl Hw))
    as (_ & Hdec).
  exact (conj Hw (conj (Hinc eq_refl) (conj eq_refl (Hdec eq_refl eq_refl)))).
Defined.

(** X14.  The ends of the range are no exception to the round trip: for
    every value of the type held by [x], [x++] then [x--], and [x--] then
    [x++], leave the object as it was, where [operator--] can be
    instantiated and the backend computes. *)
Theorem postfix_round_trip_whole_range (tg : target) (c : capabilities)
  (TINT : int_type) (TTECH : techn_t) (x : adaptive_number.t TINT TTECH) :
  instantiable tg (technique_selector c TINT TTECH) op_sub TINT = true ->
  valid_width TINT \/
  technique_selector c TINT TTECH = backend_scalar \/
  technique_selector c TINT TTECH = backend_mmx ->
  in_range TINT (adaptive_number.value x) ->
  snd (adaptive_number.operator_post_dec c
         (snd (adaptive_number.operator_post_inc c x))) = x /\
  snd (adaptive_number.operator_post_inc c
         (snd (adaptive_number.operator_post_dec c x))) = x.
Proof.
  intros Hi Hk Hv. destruct x as [v].
  unfold adaptive_number.operator_post_inc, adaptive_number.operator_post_dec,
    adaptive_number.value, adaptive_number.backend_type in *.
  cbn [snd adaptive_number.m_tiValue] in *.
  rewrite !backend_add_wraps by exact Hk.
  rewrite !(backend_sub_wraps tg) by assumption.
  destruct (wrap_add_sub_cancel TINT v 1 Hv) as (H1 & H2).
  rewrite H1, H2. split; reflexivity.
Qed.

Lemma postfix_round_trip_whole_range_witness :
  instantiable avx2_target (technique_selector avx2_build uint8_t SSE) op_sub
    uint8_t = true /\
  in_range uint8_t 255 /\
  snd (adaptive_number.operator_post_dec avx2_build
         (snd (adaptive_number.operator_post_inc avx2_build
                 (adaptive_number.Build 255 : adaptive_number.t uint8_t SSE))))
  = adaptive_number.Build 255.
Proof.
  assert (Hw : valid_width uint8_t) by (left; reflexivity).
  assert (Hv : in_range uint8_t 255) by (vm_compute; split; discriminate).
  destruct (postfix_round_trip_whole_range avx2_target avx2_build uint8_t SSE
              (adaptive_number.Build 255) eq_refl (or_introl Hw) Hv) as (H & _).
  exact (conj eq_refl (conj Hv H)).
Defined.

(** X15.  [n] postfix increments add [n] modulo [2 ^ bits]: the value held
    afterwards is the conversion of [v + n] to the type, so that
    [2 ^ bits] increments bring every value back. *)
Theorem repeated_increment (c : capabilities) (TINT : int_type)
  (TTECH : techn_t) (x : adaptive_number.t TINT TTECH) (n : nat) :
  valid_width TINT \/
  technique_selector c TINT TTECH = backend_scalar \/
  technique_selector c TINT TTECH = backend_mmx ->
  in_range TINT (adaptive_number.value x) ->
  adaptive_number.value
    (Nat.iter n (fun y => snd (adaptive_number.operator_post_inc c y)) x)
  = wrap TINT (adaptive_number.value x + Z.of_nat n) /\
  (Z.of_nat n = 2 ^ bits TINT ->
   Nat.iter n (fun y => snd (adaptive_number.operator_post_inc c y)) x = x).
Proof.
  intros Hk Hv.
  assert (Hn : forall m,
             adaptive_number.value
               (Nat.iter m (fun y => snd (adaptive_number.operator_post_inc c y)) x)
             = wrap TINT (adaptive_number.value x + Z.of_nat m)).
  { induction m as [|m IH].
    - change (Nat.iter 0 _ x) with x. cbn [Z.of_nat].
      rewrite Z.add_0_r. symmetry; apply wrap_id, Hv.
    - rewrite Nat.iter_succ.
      set (y := Nat.iter m _ x) in *. clearbody y. destruct y as [vy].
      unfold adaptive_number.operator_post_inc, adaptive_number.value,
        adaptive_number.backend_type in *.
      cbn [snd adaptive_number.m_tiValue] in *.
      rewrite backend_add_wraps by exact Hk. rewrite IH.
      apply wrap_cong. rewrite Nat2Z.inj_succ.
      replace (adaptive_number.m_tiValue x + Z.succ (Z.of_nat m))
        with (adaptive_number.m_tiValue x + Z.of_nat m + 1) by lia.
      apply cong_add; [apply cong_wrap | apply cong_refl]. }
  split; [apply Hn|].
  intros E. specialize (Hn n). rewrite E in Hn.
  assert (Hx : wrap TINT (adaptive_number.value x + 2 ^ bits TINT)
               = adaptive_number.value x).
  { rewrite <- (wrap_id TINT _ Hv) at 2. apply wrap_cong.
    unfold cong. replace (adaptive_number.value x + 2 ^ bits TINT)
      with (adaptive_number.value x + 1 * 2 ^ bits TINT) by lia.
    apply Z.mod_add. pose proof (bits_pos TINT).
    pose proof (pow2_pos (bits TINT) ltac:(lia)). lia. }
  rewrite Hx in Hn.
  destruct (Nat.iter n _ x) as [v'], x as [v].
  unfold adaptive_number.value in Hn; cbn [adaptive_number.m_tiValue] in Hn.
  f_equal; exact Hn.
Qed.

Lemma repeated_increment_witness :
  in_range uint8_t 250 /\
  adaptive_number.value
    (Nat.iter 10 (fun y => snd (adaptive_number.operator_post_inc avx2_build y))
       (adaptive_number.Build 250 : adaptive_number.t uint8_t AVX)) = 4.
Proof.
  assert (Hw : valid_width uint8_t) by (left; reflexivity).
  assert (Hv : in_range uint8_t 250) by (vm_compute; split; discriminate).
  destruct (repeated_increment avx2_build uint8_t AVX
              (adaptive_number.Build 250) 10 (or_introl Hw) Hv) as (H & _).
  refine (conj Hv _). rewrite H. reflexivity.
Defined.

(** ** Technique registry and resolution *)

Section MoreRegistryFacts.

Lemma selector_not_compiled_in (c : capabilities) (t : int_type) (tech : techn_t) :
  compiled_in c tech = false ->
  explicit_specialization t tech = None ->
  technique_selector c t tech = backend_scalar.
Proof.
  intros H He. unfold technique_selector; rewrite He; clear He.
  revert H; unfold partial_specialization, compiled_in.
  destruct c as [[] [] [] [] [] []];
    cbn [has_MMX has_SSE2 has_AVX2 has_AVX512 has_NEON has_GPU];
    repeat match goal with
           | |- context [Z.eqb tech ?X] =>
               destruct (Z.eqb_spec tech X) as [-> | ?]
           end;
    cbn; intros; try discriminate; reflexivity.
Qed.

Lemma name_not_compiled_in (c : capabilities) (tech : techn_t) :
  compiled_in c tech = false -> technt2string c tech = "Scalar"%string.
Proof.
  unfold technt2string, compiled_in.
  destruct c as [m s a a5 n g];
    cbn [has_MMX has_SSE2 has_AVX2 has_AVX512 has_NEON has_GPU].
  repeat match goal with
         | |- context [Z.eqb tech ?X] =>
             destruct (Z.eqb_spec tech X) as [-> | ?]
         end;
    cbn; intros H; try discriminate H; try subst;
    rewrite ?andb_false_r; reflexivity.
Qed.

End MoreRegistryFacts.





(** X18.  In a build that compiles, resolution never hands out a vector
    backend for another technique than the one asked for: the MMX backend
    exactly for MMX with [__MMX__]; the SSE backend exactly for SSE; the
    AVX backend exactly for AVX, or for AVX512 with [__AVX512__]. *)
Theorem technique_selector_inversion (c : capabilities) (t : int_type)
  (tech : techn_t) :
  buildable c = true ->
  (technique_selector c t tech = backend_mmx <->
   tech = MMX /\ has_MMX c = true) /\
  (technique_selector c t tech = backend_sse <-> tech = SSE) /\
  (technique_selector c t tech = backend_avx <->
   tech = AVX \/ (tech = AVX512 /\ has_AVX512 c = true)).
Proof.
  intros Hb. unfold buildable in Hb.
  apply andb_prop in Hb as (Hb & _). apply andb_prop in Hb as (Hs & Ha).
  unfold technique_selector, explicit_specialization, partial_specialization.
  unfold Scalar, internal, MMX, SSE, AVX, AVX512.
  destruct c as [m s a a5 n g];
    cbn [has_MMX has_SSE2 has_AVX2 has_AVX512 has_NEON has_GPU] in *.
  subst s a.
  destruct (Z.eqb_spec tech 0) as [-> | ?];
    [destruct t, m, a5; cbn; solve [intuition (try discriminate; try congruence)]|].
  destruct (Z.eqb_spec tech 255) as [-> | ?];
    [destruct t, m, a5; cbn; solve [intuition (try discriminate; try congruence)]|].
  destruct (Z.eqb_spec tech 1) as [-> | ?];
    [destruct t, m, a5; cbn; solve [intuition (try discriminate; try congruence)]|].
  rewrite ?andb_false_r.
  destruct (Z.eqb_spec tech 2) as [-> | ?];
    [destruct t, m, a5; cbn; solve [intuition (try discriminate; try congruence)]|].
  rewrite ?andb_false_r.
  destruct (Z.eqb_spec tech 4) as [-> | ?];
    [destruct t, m, a5; cbn; solve [intuition (try discriminate; try congruence)]|].
  rewrite ?andb_false_r.
  destruct (Z.eqb_spec tech 8) as [-> | ?];
    [destruct t, m, a5; cbn; solve [intuition (try discriminate; try congruence)]|].
  rewrite ?andb_false_r.
  destruct t; solve [intuition (try discriminate; try congruence)].
Qed.

Lemma technique_selector_inversion_witness :
  buildable avx2_build = true /\
  technique_selector avx2_build uint64_t SSE = backend_sse /\
  technique_selector avx2_build int32_t AVX512 <> backend_avx.
Proof.
  destruct (technique_selector_inversion avx2_build uint64_t SSE eq_refl)
    as (_ & (_ & Hsse) & _).
  destruct (technique_selector_inversion avx2_build int32_t AVX512 eq_refl)
    as (_ & _ & (Havx & _)).
  refine (conj eq_refl (conj (Hsse eq_refl) _)).
  intros H. destruct (Havx H) as [E | (_ & E)]; discriminate E.
Defined.

(** X19.  Fallback: a technique whose macro is not defined, or that has no
    enumerator at all, bound to a type without an explicit specialization
    for it, gives the scalar result of add, sub, mul and div at every
    width, and is rendered "Scalar". *)
Theorem unavailable_technique_falls_back (c : capabilities) (t : int_type)
  (tech : techn_t) (a b : Z) :
  compiled_in c tech = false ->
  explicit_specialization t tech = None ->
  backend_add (technique_selector c t tech) t a b
  = technique_backend_scalar.add t a b /\
  backend_sub (technique_selector c t tech) t a b
  = technique_backend_scalar.sub t a b /\
  backend_mul (technique_selector c t tech) t a b
  = technique_backend_scalar.mul t a b /\
  backend_div (technique_selector c t tech) t a b
  = technique_backend_scalar.div t a b /\
  technt2string c tech = "Scalar"%string.
Proof.
  intros Hc He.
  rewrite (selector_not_compiled_in c t tech Hc He).
  repeat split. apply name_not_compiled_in, Hc.
Qed.

Lemma unavailable_technique_falls_back_witness :
  compiled_in avx2_build AVX512 = false /\
  backend_add (technique_selector avx2_build (other_int 16 true) AVX512)
    (other_int 16 true) 5 3 = 8 /\
  technt2string avx2_build AVX512 = "Scalar"%string.
Proof.
  destruct (unavailable_technique_falls_back avx2_build (other_int 16 true)
              AVX512 5 3 eq_refl eq_refl) as (Hadd & _ & _ & _ & Hname).
  refine (conj eq_refl (conj _ Hname)).
  rewrite Hadd. reflexivity.
Defined.

(** X20.  The name of a technique and the backend it resolves to: "MMX",
    "SSE", "AVX" name techniques that resolve to the backend of that name
    and "AVX512" one that resolves to the AVX backend, but a technique
    rendered "NEON", "OpenCL" or "Vulkan" resolves to the scalar backend;
    and two techniques with the same name other than "Scalar" are the same
    technique. *)
Theorem technique_name_and_backend (c : capabilities) (t : int_type)
  (tech : techn_t) :
  (technt2string c tech = "MMX"%string ->
   technique_selector c t tech = backend_mmx) /\
  (technt2string c tech = "SSE"%string ->
   technique_selector c t tech = backend_sse) /\
  (technt2string c tech = "AVX"%string ->
   technique_selector c t tech = backend_avx) /\
  (technt2string c tech = "AVX512"%string ->
   technique_selector c t tech = backend_avx) /\
  (technt2string c tech = "NEON"%string \/
   technt2string c tech = "OpenCL"%string \/
   technt2string c tech = "Vulkan"%string ->
   technique_selector c t tech = backend_scalar) /\
  (forall tech' : techn_t,
      technt2string c tech = technt2string c tech' ->
      technt2string c tech <> "Scalar"%string ->
      tech = tech').
Proof.
  assert (Hname : forall u : techn_t,
             technt2string c u = "Scalar"%string \/
             (technt2string c u = "MMX"%string /\ has_MMX c = true /\ u = MMX) \/
             (technt2string c u = "SSE"%string /\ has_SSE2 c = true /\ u = SSE) \/
             (technt2string c u = "AVX"%string /\ has_AVX2 c = true /\ u = AVX) \/
             (technt2string c u = "AVX512"%string /\ has_AVX512 c = true /\ u = AVX512) \/
             (technt2string c u = "NEON"%string /\ u = NEON) \/
             (technt2string c u = "OpenCL"%string /\ u = OpenCL) \/
             (technt2string c u = "Vulkan"%string /\ u = Vulkan)).
  { intros u. unfold technt2string.
    destruct c as [[] [] [] [] [] []];
      cbn [has_MMX has_SSE2 has_AVX2 has_AVX512 has_NEON has_GPU andb];
      repeat match goal with
             | |- context [Z.eqb u ?X] =>
                 destruct (Z.eqb_spec u X) as [-> | ?]
             end;
      cbn; auto 15. }
  assert (Hsel : forall u, u = NEON \/ u = OpenCL \/ u = Vulkan ->
                           technique_selector c t u = backend_scalar)
    by (intros u [-> | [-> | ->]]; apply selector_unspecialized; reflexivity).
  assert (Hmmx : has_MMX c = true -> technique_selector c t MMX = backend_mmx)
    by (intros H; unfold technique_selector, partial_specialization;
        rewrite H; destruct t; reflexivity).
  assert (Hsse : has_SSE2 c = true -> technique_selector c t SSE = backend_sse)
    by (intros H; unfold technique_selector, partial_specialization; rewrite H;
        destruct (has_MMX c), t; reflexivity).
  assert (Havx : has_AVX2 c = true -> technique_selector c t AVX = backend_avx)
    by (intros H; unfold technique_selector, partial_specialization; rewrite H;
        destruct (has_MMX c), (has_SSE2 c), t; reflexivity).
  assert (Hav5 : has_AVX512 c = true -> technique_selector c t AVX512 = backend_avx)
    by (intros H; unfold technique_selector, partial_specialization; rewrite H;
        destruct (has_MMX c), (has_SSE2 c), (has_AVX2 c), t; reflexivity).
  repeat split.
  - intros E; destruct (Hname tech) as [H|[H|[H|[H|[H|[H|[H|H]]]]]]];
      rewrite E in H; try discriminate H;
      try (destruct H as (H & _); discriminate H).
    destruct H as (_ & Hc & ->); auto.
  - intros E; destruct (Hname tech) as [H|[H|[H|[H|[H|[H|[H|H]]]]]]];
      rewrite E in H; try discriminate H;
      try (destruct H as (H & _); discriminate H).
    destruct H as (_ & Hc & ->); auto.
  - intros E; destruct (Hname tech) as [H|[H|[H|[H|[H|[H|[H|H]]]]]]];
      rewrite E in H; try discriminate H;
      try (destruct H as (H & _); discriminate H).
    destruct H as (_ & Hc & ->); auto.
  - intros E; destruct (Hname tech) as [H|[H|[H|[H|[H|[H|[H|H]]]]]]];
      rewrite E in H; try discriminate H;
      try (destruct H as (H & _); discriminate H).
    destruct H as (_ & Hc & ->); auto.
  - intros E; apply Hsel.
    destruct (Hname tech) as [H|[H|[H|[H|[H|[H|[H|H]]]]]]];
      destruct E as [E | [E | E]]; rewrite E in H; try discriminate H;
      try (destruct H as (H & _); discriminate H); tauto.
  - intros tech' E Hns.
    destruct (Hname tech) as [H|[H|[H|[H|[H|[H|[H|H]]]]]]]; [contradiction|..];
      destruct (Hname tech') as [H'|[H'|[H'|[H'|[H'|[H'|[H'|H']]]]]]];
      try (rewrite <- E in H');
      repeat match goal with
             | X : _ /\ _ |- _ => destruct X
             end;
      try congruence;
      match goal with
      | X : technt2string c tech = ?s1, Y : technt2string c tech = ?s2 |- _ =>
          rewrite X in Y; discriminate Y
      end.
Qed.

Lemma technique_name_and_backend_witness :
  technt2string (Build_capabilities true true true false false true) OpenCL
  = "OpenCL"%string /\
  technique_selector (Build_capabilities true true true false false true)
    int32_t OpenCL = backend_scalar.
Proof.
  destruct (technique_name_and_backend
              (Build_capabilities true true true false false true) int32_t OpenCL)
    as (_ & _ & _ & _ & H & _).
  exact (conj eq_refl (H (or_intror (or_introl eq_refl)))).
Defined.

(** X21.  The backends compute on bit patterns: for two types of the same
    size, one unsigned and one signed, the unsigned result of add, sub and
    mul is the signed result read modulo [2 ^ bits], where the member can
    be instantiated and the backend computes. *)
Theorem backend_signedness_agnostic (tg : target) (k : backend)
  (tu ts : int_type) (a b : Z) :
  sizeof tu = sizeof ts -> is_signed tu = false ->
  valid_width tu \/ k = backend_scalar \/ k = backend_mmx ->
  backend_add k tu a b = backend_add k ts a b mod 2 ^ bits tu /\
  (instantiable tg k op_sub tu = true ->
   backend_sub k tu a b = backend_sub k ts a b mod 2 ^ bits tu) /\
  (instantiable tg k op_mul tu = true ->
   backend_mul k tu a b = backend_mul k ts a b mod 2 ^ bits tu).
Proof.
  intros Hsz Hu Hk.
  assert (Hk' : valid_width ts \/ k = backend_scalar \/ k = backend_mmx)
    by (unfold valid_width in *; rewrite <- Hsz; exact Hk).
  assert (Hb : bits ts = bits tu) by (unfold bits; rewrite Hsz; reflexivity).
  assert (Hun : forall z, wrap tu z = wrap ts z mod 2 ^ bits tu).
  { intros z. pose proof (cong_wrap ts z) as H. rewrite Hb in H.
    unfold cong in H. rewrite H. unfold wrap, unsigned; rewrite Hu; reflexivity. }
  assert (Hi : forall o, instantiable tg k o ts = instantiable tg k o tu)
    by (intros o; unfold instantiable; rewrite Hsz; reflexivity).
  rewrite !backend_add_wraps by assumption.
  split; [apply Hun|]. split; intros H.
  - rewrite !(backend_sub_wraps tg) by (assumption || (rewrite Hi; exact H)).
    apply Hun.
  - rewrite !(backend_mul_wraps tg) by (tauto || (rewrite Hi; exact H)).
    apply Hun.
Qed.

Lemma backend_signedness_agnostic_witness :
  instantiable avx2_target backend_sse op_sub uint8_t = true /\
  backend_sub backend_sse uint8_t 0 1 = 255 /\
  backend_sub backend_sse int8_t 0 1 = -1.
Proof.
  assert (Hw : valid_width uint8_t) by (left; reflexivity).
  destruct (backend_signedness_agnostic avx2_target backend_sse uint8_t int8_t
              0 1 eq_refl eq_refl (or_introl Hw)) as (_ & H & _).
  refine (conj eq_refl (conj _ eq_refl)). rewrite (H eq_refl). reflexivity.
Defined.
